(** * Messer: the session state manager and command dispatcher

    A shallow embedding of [messer.js] (the [Messer] session object:
    [clear], [processCommand], [cacheThread], [getThreadByName],
    [getThreadById]) together with the properties of the thread cache, the
    thread resolver and the lock interception of the dispatcher.

    Modelling conventions.
    - A JavaScript string is a sequence of code units; the model covers the
      code units below 256 (Rocq's [ascii]), read as Latin-1.
    - A plain JavaScript object used as a dictionary is the ordered list of
      its own properties. The key [__proto__], which names the accessor of
      [Object.prototype] and can never be an own property made by an
      assignment, is modelled where a thread name is the key, for a name is
      text of the user's. Thread ids are the identifiers the backend issues:
      a read at an id that happens to name a member inherited from
      [Object.prototype] (or from a record made the prototype) is outside
      the model.
    - A promise that is settled before the function returns is the value it
      is settled with ([Resolve] or [Reject]); calls to collaborators that do
      not live in [messer.js] are recorded as events. *)

From Stdlib Require Import String Ascii List Bool Arith NArith ZArith.
Import ListNotations.

Local Open Scope list_scope.
Local Open Scope string_scope.

(** ** JavaScript strings *)

Module JSString.

(** The line feed, U+000A. *)
Definition LF : string := String (ascii_of_nat 10) "".

(** The double quote, U+0022. *)
Definition DQUOTE : string := String (ascii_of_nat 34) "".

(** [WhiteSpace] and [LineTerminator] code points below 256: TAB, LF, VT,
    FF, CR, SP and NBSP. *)
Definition isWhiteSpace (c : ascii) : bool :=
  existsb (Nat.eqb (nat_of_ascii c)) [9; 10; 11; 12; 13; 32; 160]%nat.

Fixpoint trimStart (s : string) : string :=
  match s with
  | "" => ""
  | String c s' => if isWhiteSpace c then trimStart s' else s
  end.

Fixpoint trimEnd (s : string) : string :=
  match s with
  | "" => ""
  | String c s' =>
      match trimEnd s' with
      | "" => if isWhiteSpace c then "" else String c ""
      | r => String c r
      end
  end.

(** [String.prototype.trim]. *)
Definition trim (s : string) : string := trimEnd (trimStart s).

Fixpoint drop (n : nat) (s : string) : string :=
  match n, s with
  | O, _ => s
  | S _, "" => ""
  | S n', String _ s' => drop n' s'
  end.

(** [s.replace(pat, rep)] for a string pattern: only the first occurrence
    of [pat] is replaced ([rep] holds no [$] pattern in this program). *)
Fixpoint replace (pat rep s : string) : string :=
  if String.prefix pat s then rep ++ drop (String.length pat) s
  else match s with
       | "" => ""
       | String c s' => String c (replace pat rep s')
       end.

(** [s.split(sep)] for a separator of one code unit. The result is never
    the empty array. *)
Fixpoint split (sep : ascii) (s : string) : list string :=
  match s with
  | "" => [""]
  | String c s' =>
      if Ascii.eqb c sep then "" :: split sep s'
      else match split sep s' with
           | h :: t => String c h :: t
           | [] => [String c ""]
           end
  end.

(** [arr.join(sep)]. *)
Definition join (sep : string) (arr : list string) : string :=
  String.concat sep arr.

Definition toLowerCaseUnit (c : ascii) : ascii :=
  let n := nat_of_ascii c in
  if (((65 <=? n) && (n <=? 90))
      || ((192 <=? n) && (n <=? 222) && negb (n =? 215)))%nat
  then ascii_of_nat (n + 32)
  else c.

(** [String.prototype.toLowerCase] on Latin-1 code units. *)
Fixpoint toLowerCase (s : string) : string :=
  match s with
  | "" => ""
  | String c s' => String (toLowerCaseUnit c) (toLowerCase s')
  end.

(** [s.startsWith(p)]. *)
Definition startsWith (s p : string) : bool := String.prefix p s.

(** Truthiness of a string value: every string but the empty one. *)
Definition truthy (s : string) : bool := negb (String.eqb s "").

(** Whether the code unit [c] occurs in [s]. *)
Fixpoint includes (c : ascii) (s : string) : bool :=
  match s with
  | "" => false
  | String d s' => Ascii.eqb d c || includes c s'
  end.

End JSString.

(** ** Plain objects used as dictionaries *)

Module JSObject.

(** The own properties of an object, in the order of their creation. The
    operations below keep the keys pairwise distinct. *)
Definition t (V : Type) : Type := list (string * V).

Definition empty {V : Type} : t V := [].

(** [o[k]] for a string [k]: [None] is [undefined]. *)
Fixpoint get {V : Type} (o : t V) (k : string) : option V :=
  match o with
  | [] => None
  | (k', v) :: o' => if String.eqb k' k then Some v else get o' k
  end.

(** The write of an own property: an existing property keeps its place, a
    new one is added last. *)
Fixpoint set {V : Type} (o : t V) (k : string) (v : V) : t V :=
  match o with
  | [] => [(k, v)]
  | (k', v') :: o' =>
      if String.eqb k' k then (k', v) :: o' else (k', v') :: set o' k v
  end.

(** [o[k] = v] for a value [v] that is no object (a string): under the key
    [__proto__] the assignment reaches the setter of [Object.prototype],
    which ignores such a value, and writes nothing; under any other key it
    writes the own property. *)
Definition assign {V : Type} (o : t V) (k : string) (v : V) : t V :=
  if String.eqb k "__proto__" then o else set o k v.

(** [ToPropertyKey] of a value that is a string or [undefined]. *)
Definition toPropertyKey (v : option string) : string :=
  match v with
  | Some s => s
  | None => "undefined"
  end.

Definition digit (c : ascii) : option N :=
  let n := N_of_ascii c in
  if ((48 <=? n) && (n <=? 57))%N then Some (n - 48)%N else None.

Fixpoint parseDigits (acc : N) (s : string) : option N :=
  match s with
  | "" => Some acc
  | String c s' =>
      match digit c with
      | Some d => parseDigits (10 * acc + d)%N s'
      | None => None
      end
  end.

(** A key is an array index when it is the canonical decimal form of an
    integer below 2^32 - 1. *)
Definition arrayIndex (k : string) : option N :=
  match k with
  | "" => None
  | String c rest =>
      if Ascii.eqb c "0"
      then if String.eqb rest "" then Some 0%N else None
      else match parseDigits 0 k with
           | Some n => if (n <? 4294967295)%N then Some n else None
           | None => None
           end
  end.

Definition isArrayIndex (k : string) : bool :=
  match arrayIndex k with
  | Some _ => true
  | None => false
  end.

Fixpoint insertIndex (x : N * string) (l : list (N * string))
  : list (N * string) :=
  match l with
  | [] => [x]
  | y :: l' => if (fst x <=? fst y)%N then x :: l else y :: insertIndex x l'
  end.

Definition indexKeys (ks : list string) : list (N * string) :=
  fold_right
    (fun k acc =>
       match arrayIndex k with
       | Some n => insertIndex (n, k) acc
       | None => acc
       end)
    [] ks.

(** [Object.keys(o)]: the array-index keys in ascending numeric order, then
    the other keys in the order of their creation. *)
Definition keys {V : Type} (o : t V) : list string :=
  let ks := map fst o in
  (map snd (indexKeys ks)
    ++ filter (fun k => negb (isArrayIndex k)) ks)%list.

End JSObject.

(** ** Data model *)

Module Thread.

(** The properties of a thread object that [messer.js] reads or writes.
    [None] stands for a property that is [undefined] (or [null]). *)
Record t : Type := mk {
  name : option string;
  threadID : string;
  color : option string;
  lastMessageTimestamp : option string;
  unreadCount : option N
}.

(** [Object.assign(thread, { name: n })] and [thread.name = n]. *)
Definition setName (thread : t) (n : string) : t :=
  {| name := Some n;
     threadID := threadID thread;
     color := color thread;
     lastMessageTimestamp := lastMessageTimestamp thread;
     unreadCount := unreadCount thread |}.

(** Truthiness of [thread.name]. *)
Definition hasName (thread : t) : bool :=
  match name thread with
  | Some n => JSString.truthy n
  | None => false
  end.

End Thread.

Module Friend.
Record t : Type := mk { userID : string; fullName : string }.
End Friend.

Module User.
Record t : Type := mk { id : string; name : string; friends : list Friend.t }.
End User.

(** What the backend hands to the callback of [getThreadInfo]: [(err, data)]
    with a truthy [err], or a thread. The error value is only passed on. *)
Inductive ThreadInfo : Type :=
| Err (err : string)
| Data (data : Thread.t).

Module Api.
Record t : Type := mk { getThreadInfo : string -> ThreadInfo }.
End Api.

Module Messen.
Record t : Type := mk { api : Api.t; user : User.t }.
End Messen.

Module Messer.

Record t : Type := mk {
  messen : Messen.t;
  threadCache : JSObject.t Thread.t;       (* cached by id *)
  threadNameToIdMap : JSObject.t string;   (* maps a thread name to a thread id *)
  lastThread : option Thread.t;
  unreadMessagesCount : Z;
  debug : bool
}.

(** [new Messer(options)] around a given backend session. *)
Definition new (m : Messen.t) (options_debug : bool) : t :=
  {| messen := m;
     threadCache := JSObject.empty;
     threadNameToIdMap := JSObject.empty;
     lastThread := None;
     unreadMessagesCount := 0;
     debug := options_debug |}.

Definition withThreadCache (this : t) (c : JSObject.t Thread.t) : t :=
  {| messen := messen this;
     threadCache := c;
     threadNameToIdMap := threadNameToIdMap this;
     lastThread := lastThread this;
     unreadMessagesCount := unreadMessagesCount this;
     debug := debug this |}.

Definition withThreadNameToIdMap (this : t) (m : JSObject.t string) : t :=
  {| messen := messen this;
     threadCache := threadCache this;
     threadNameToIdMap := m;
     lastThread := lastThread this;
     unreadMessagesCount := unreadMessagesCount this;
     debug := debug this |}.

Definition withUnreadMessagesCount (this : t) (n : Z) : t :=
  {| messen := messen this;
     threadCache := threadCache this;
     threadNameToIdMap := threadNameToIdMap this;
     lastThread := lastThread this;
     unreadMessagesCount := n;
     debug := debug this |}.

End Messer.

(** ** Effects *)

(** Calls that leave [messer.js]. *)
Inductive Event : Type :=
| GetThreadInfo (threadID : string)   (* this.messen.api.getThreadInfo(threadID, cb) *)
| NotifyTerminal.                     (* helpers.notifyTerminal() *)

(** A rejection reason: an [Error(message)] made by [messer.js], or the error
    value of the backend. *)
Inductive Reason : Type :=
| Error (message : string)
| BackendError (err : string).

Inductive Promise (A : Type) : Type :=
| Resolve (value : A)
| Reject (reason : Reason).

Arguments Resolve {A} value.
Arguments Reject {A} reason.

(** The object a resolved thread is. [getThreadById] hands out the very
    object the cache holds on a hit, so a later write to it is seen through
    the cache; every other thread object is unknown to the cache. *)
Inductive Ref : Type :=
| CacheEntry (key : string) (obj : Thread.t)
| Detached (obj : Thread.t).

Definition target (r : Ref) : Thread.t :=
  match r with
  | CacheEntry _ obj => obj
  | Detached obj => obj
  end.

(** One run of a method: the calls it made, the session it leaves, and what
    it returned. *)
Record Run (A : Type) : Type := mkRun {
  events : list Event;
  session : Messer.t;
  result : A
}.

Arguments mkRun {A} events session result.
Arguments events {A} r.
Arguments session {A} r.
Arguments result {A} r.

(** The number of [getThreadInfo] calls among some events. *)
Definition backendCalls (evs : list Event) : nat :=
  length (filter (fun e => match e with GetThreadInfo _ => true | _ => false end) evs).

Definition ThreadNotFound : Reason := Error "No threadID could be found.".
Definition FriendNotFound : Reason := Error "Friend could not be found for thread".
Definition InvalidCommand : Reason := Error "Invalid command - check your syntax".

(** ** The thread cache *)

(** [Messer.prototype.cacheThread]. The record is an object: written
    under the id [__proto__] it would become the prototype of the cache and
    be read back under that id, as the entry of the model is. The id written
    to the name index is a string, so [JSObject.assign] applies. *)
Definition cacheThread (this : Messer.t) (thread : Thread.t) : Messer.t :=
  let this1 :=
    Messer.withThreadCache this
      (JSObject.set (Messer.threadCache this) (Thread.threadID thread)
         {| Thread.name := Thread.name thread;
            Thread.threadID := Thread.threadID thread;
            Thread.color := Thread.color thread;
            Thread.lastMessageTimestamp := Thread.lastMessageTimestamp thread;
            Thread.unreadCount := Thread.unreadCount thread |}) in
  match Thread.name thread with
  | Some n =>
      if JSString.truthy n
      then Messer.withThreadNameToIdMap this1
             (JSObject.assign (Messer.threadNameToIdMap this1) n (Thread.threadID thread))
      else this1
  | None => this1
  end.

(** [ThreadCache.getById]: the record that the read [this.threadCache[id]]
    gives; [None] when the cache holds none under that id. *)
Definition getById (this : Messer.t) (id : string) : option Thread.t :=
  JSObject.get (Messer.threadCache this) id.

(** [ThreadCache.getIdByName]: the id that the read
    [this.threadNameToIdMap[name]] gives; [None] when it gives none
    ([undefined], or for [__proto__] the prototype, which is no id). *)
Definition getIdByName (this : Messer.t) (name : string) : option string :=
  JSObject.get (Messer.threadNameToIdMap this) name.

(** ** Resolving threads *)

(** [Messer.prototype.getThreadById]. *)
Definition getThreadById (this : Messer.t) (threadID : string)
    (requireName : bool) : Run (Promise Ref) :=
  match JSObject.get (Messer.threadCache this) threadID with
  | Some thread => mkRun [] this (Resolve (CacheEntry threadID thread))
  | None =>
      let called := [GetThreadInfo threadID] in
      match Api.getThreadInfo (Messen.api (Messer.messen this)) threadID with
      | Err err => mkRun called this (Reject (BackendError err))
      | Data data =>
          let user := Messen.user (Messer.messen this) in
          (* try to get thread name from friends list *)
          if negb (Thread.hasName data) && requireName then
            if String.eqb threadID (User.id user) then
              let thread := Thread.setName data (User.name user) in
              mkRun called (cacheThread this thread) (Resolve (Detached thread))
            else
              match find (fun user => String.eqb (Friend.userID user) threadID)
                         (User.friends user) with
              | None => mkRun called this (Reject FriendNotFound)
              | Some friend =>
                  let thread := Thread.setName data (Friend.fullName friend) in
                  mkRun called (cacheThread this thread) (Resolve (Detached thread))
              end
          else
            mkRun called (cacheThread this data) (Resolve (Detached data))
      end
  end.

(** [Messer.prototype.getThreadByName]. *)
Definition getThreadByName (this : Messer.t) (threadName : string)
    : Run (Promise Ref) :=
  let fullThreadName :=
    find (fun n => JSString.startsWith (JSString.toLowerCase n)
                     (JSString.toLowerCase threadName))
         (JSObject.keys (Messer.threadNameToIdMap this)) in
  let threadID :=
    JSObject.get (Messer.threadNameToIdMap this)
      (JSObject.toPropertyKey fullThreadName) in
  (* if thread not cached, try the friends list *)
  let tryFriends :=
    match find (fun n => JSString.startsWith (JSString.toLowerCase (Friend.fullName n))
                           (JSString.toLowerCase threadName))
               (User.friends (Messen.user (Messer.messen this))) with
    | None => mkRun [] this (Reject ThreadNotFound)
    | Some friend =>
        (* create a fake thread based off friend info *)
        let friendThread :=
          {| Thread.name := Some (Friend.fullName friend);
             Thread.threadID := Friend.userID friend;
             Thread.color := None;
             Thread.lastMessageTimestamp := None;
             Thread.unreadCount := None |} in
        mkRun [] this (Resolve (Detached friendThread))
    end in
  match threadID with
  | None => tryFriends
  | Some threadID =>
      if negb (JSString.truthy threadID) then tryFriends
      else
        let r := getThreadById this threadID false in
        match result r with
        | Reject err => mkRun (events r) (session r) (Reject err)
        | Resolve thread =>
            if negb (Thread.hasName (target thread)) then
              let named := Thread.setName (target thread) threadName in
              match thread with
              | CacheEntry key _ =>
                  mkRun (events r)
                    (Messer.withThreadCache (session r)
                       (JSObject.set (Messer.threadCache (session r)) key named))
                    (Resolve (CacheEntry key named))
              | Detached _ =>
                  mkRun (events r) (session r) (Resolve (Detached named))
              end
            else mkRun (events r) (session r) (Resolve thread)
        end
  end.

(** ** The lock *)

Module lock.

(** Modelled from the spec: [util/lock.js] is not among the sources. The
    lock state is an optional single value, the pinned target name, unset
    at session start; locking on a new target replaces the old one. *)
Definition t : Type := option string.

Definition unset : t := None.

Definition lockOn (target : string) (l : t) : t := Some target.

Definition unlock (l : t) : t := None.

Definition isLocked (l : t) : bool :=
  match l with
  | Some _ => true
  | None => false
  end.

(** Only consulted while the lock is held. *)
Definition getLockedTarget (l : t) : string :=
  match l with
  | Some target => target
  | None => ""
  end.

End lock.

(** ** Dispatching commands *)

(** [Messer.prototype.clear]. *)
Definition clear (this : Messer.t) : Run unit :=
  if Z.eqb (Messer.unreadMessagesCount this) 0 then mkRun [] this tt
  else mkRun [NotifyTerminal] (Messer.withUnreadMessagesCount this 0) tt.

(** How [processCommand] ends: with [Promise.resolve()], with a rejection, or
    by calling a handler of the registry on the session and a line, whose
    promise it returns. *)
Inductive Completion (Handler : Type) : Type :=
| Resolved
| Rejected (reason : Reason)
| Invoked (commandHandler : Handler) (line : string).

Arguments Resolved {Handler}.
Arguments Rejected {Handler} reason.
Arguments Invoked {Handler} commandHandler line.

Section Dispatcher.

(** The command registry of [commands/command-handlers.js], which is not
    among the sources: [getCommandHandler(verb)] is a handler or
    [undefined]. *)
Variable Handler : Type.
Variable getCommandHandler : string -> option Handler.

(** [Messer.prototype.processCommand], with the state of the lock module
    as an argument. *)
Definition processCommand (lk : lock.t) (this : Messer.t)
    (rawCommand : string) : Run (Completion Handler) :=
  let cleared := clear this in (* If we are typing, new messages have been read *)
  let this := session cleared in
  let localCommand := rawCommand in
  (* ignore if rawCommand is only spaces *)
  if Nat.eqb (String.length (JSString.trim localCommand)) 0
  then mkRun (events cleared) this Resolved
  else
    let args := JSString.split " " (JSString.replace JSString.LF "" localCommand) in
    let commandHandler := getCommandHandler (hd "" args) in
    let '(commandHandler, localCommand) :=
      if lock.isLocked lk then
        if String.eqb (JSString.trim localCommand) "unlock"
        then (getCommandHandler "unlock", localCommand)
        else (getCommandHandler "m",
              ((("m " ++ JSString.DQUOTE) ++ lock.getLockedTarget lk)
                 ++ (JSString.DQUOTE ++ " "))
                ++ JSString.join " " args)
      else (commandHandler, localCommand) in
    match commandHandler with
    | None => mkRun (events cleared) this (Rejected InvalidCommand)
    | Some commandHandler =>
        mkRun (events cleared) this (Invoked commandHandler localCommand)
    end.

End Dispatcher.

Arguments processCommand {Handler} getCommandHandler lk this rawCommand.


(** ** Vocabulary of the properties *)

(** The line [m "<target>" <body>] that the send-message handler parses. *)
Definition pinnedLine (target body : string) : string :=
  "m " ++ JSString.DQUOTE ++ target ++ JSString.DQUOTE ++ " " ++ body.

(** A sequence of [cacheThread] calls, oldest first. *)
Definition cacheAll (this : Messer.t) (threads : list Thread.t) : Messer.t :=
  fold_left cacheThread threads this.

(** The thread most recently cached with the id [k], among [threads]. *)
Definition lastWithId (k : string) (threads : list Thread.t) : option Thread.t :=
  find (fun t => String.eqb (Thread.threadID t) k) (rev threads).

(** [cacheThread(t)] writes the index entry of the name [n]: [n] is the name
    of [t], it is truthy, and it is a key an assignment can write. *)
Definition isNamed (n : string) (t : Thread.t) : bool :=
  Thread.hasName t
  && match Thread.name t with
     | Some m => String.eqb m n
     | None => false
     end
  && negb (String.eqb n "__proto__").

(** The thread most recently indexed under the name [n]. *)
Definition lastWithName (n : string) (threads : list Thread.t) : option Thread.t :=
  find (isNamed n) (rev threads).

(** ** A concrete session, for the examples *)

Definition bob : Friend.t := Friend.mk "42" "Bob Smith".

Definition me : User.t := User.mk "100" "Me" [bob].

Definition plainThread (name : option string) (threadID : string) : Thread.t :=
  {| Thread.name := name;
     Thread.threadID := threadID;
     Thread.color := None;
     Thread.lastMessageTimestamp := None;
     Thread.unreadCount := Some 0%N |}.

(** A backend that is out of reach. *)
Definition offline : Api.t := Api.mk (fun _ => Err "offline").

(** A backend that knows the thread 7, which has no name. *)
Definition online : Api.t :=
  Api.mk (fun threadID =>
            if String.eqb threadID "7" then Data (plainThread None "7")
            else Err "unknown thread").

Definition sessionOn (api : Api.t) (friends : list Friend.t) : Messer.t :=
  Messer.new (Messen.mk api (User.mk "100" "Me" friends)) false.

(** A registry whose handlers are known by the name of their command. *)
Definition registry (verb : string) : option string :=
  if existsb (String.eqb verb) ["m"; "unlock"; "lock"; "help"]
  then Some verb
  else None.

(** The two halves of the cache invariant, as the data model words them:
    a thread is cached under its own id, *)
Definition cachedUnderOwnId (this : Messer.t) : Prop :=
  forall k t, getById this k = Some t -> Thread.threadID t = k.

(** and the name index maps the non-empty name of every cached thread to
    the id of that thread. *)
Definition nameIndexed (this : Messer.t) : Prop :=
  forall k t n,
    getById this k = Some t ->
    Thread.name t = Some n ->
    JSString.truthy n = true ->
    getIdByName this n = Some k.

(** ** Refreshing the thread list *)

(** What the backend hands to the callback of [getThreadList]:
    [(err, threads)], each of which may be missing. *)
Record ThreadList : Type := mkThreadList {
  listErr : option string;
  listThreads : option (list Thread.t)
}.

(** [Messer.prototype.refreshThreadList], over the backend's
    [getThreadList(limit, timestamp, tags, cb)]. An array is truthy even when
    it is empty; [forEach] caches the threads in their order. *)
Definition refreshThreadList
    (getThreadList : nat -> option string -> list string -> ThreadList)
    (this : Messer.t) : Messer.t * Promise unit :=
  let answer := getThreadList 20 None ["INBOX"] in
  match listThreads answer with
  | None => (this, Reject (Error "Nothing returned from getThreadList"))
  | Some threads =>
      (fold_left (fun this thread => cacheThread this thread) threads this,
       Resolve tt)
  end.

(** ** More vocabulary *)

(** Every id the name index points to is an id of the cache. *)
Definition indexTargetsCached (this : Messer.t) : Prop :=
  forall n id, getIdByName this n = Some id -> getById this id <> None.

Definition wellFormed (this : Messer.t) : Prop :=
  cachedUnderOwnId this /\ indexTargetsCached this.

(** [after] has an entry wherever [before] has one, in the cache and in the
    name index. *)
Definition retains (before after : Messer.t) : Prop :=
  (forall k, getById before k <> None -> getById after k <> None)
  /\ (forall n, getIdByName before n <> None -> getIdByName after n <> None).

(** The id of the thread a promise resolves with. *)
Definition outcomeId (p : Promise Ref) : Promise string :=
  match p with
  | Resolve thread => Resolve (Thread.threadID (target thread))
  | Reject reason => Reject reason
  end.

(** A backend whose inbox holds three records, two of them of the thread 1. *)
Definition inbox (limit : nat) (timestamp : option string) (tags : list string)
    : ThreadList :=
  mkThreadList None
    (Some [plainThread (Some "Alice") "1"; plainThread None "7";
           plainThread (Some "Alicia") "1"]).

(** The ways a call [getThreadByName(threadName)] on [this] can go. *)
Inductive Resolution (this : Messer.t) (threadName : string)
  : Run (Promise Ref) -> Prop :=
| NobodyFound :
    Resolution this threadName (mkRun [] this (Reject ThreadNotFound))
| FriendFound (friend : Friend.t) :
    In friend (User.friends (Messen.user (Messer.messen this))) ->
    JSString.startsWith (JSString.toLowerCase (Friend.fullName friend))
      (JSString.toLowerCase threadName) = true ->
    Resolution this threadName
      (mkRun [] this
         (Resolve (Detached {| Thread.name := Some (Friend.fullName friend);
                               Thread.threadID := Friend.userID friend;
                               Thread.color := None;
                               Thread.lastMessageTimestamp := None;
                               Thread.unreadCount := None |})))
| CachedNamed (key id : string) (t : Thread.t) :
    getIdByName this key = Some id ->
    JSString.truthy id = true ->
    getById this id = Some t ->
    Thread.hasName t = true ->
    Resolution this threadName (mkRun [] this (Resolve (CacheEntry id t)))
| CachedStamped (key id : string) (t : Thread.t) :
    getIdByName this key = Some id ->
    JSString.truthy id = true ->
    getById this id = Some t ->
    Thread.hasName t = false ->
    Resolution this threadName
      (mkRun []
         (Messer.withThreadCache this
            (JSObject.set (Messer.threadCache this) id (Thread.setName t threadName)))
         (Resolve (CacheEntry id (Thread.setName t threadName))))
| FetchFailed (key id err : string) :
    getIdByName this key = Some id ->
    JSString.truthy id = true ->
    getById this id = None ->
    Api.getThreadInfo (Messen.api (Messer.messen this)) id = Err err ->
    Resolution this threadName
      (mkRun [GetThreadInfo id] this (Reject (BackendError err)))
| Fetched (key id : string) (data : Thread.t) :
    getIdByName this key = Some id ->
    JSString.truthy id = true ->
    getById this id = None ->
    Api.getThreadInfo (Messen.api (Messer.messen this)) id = Data data ->
    Resolution this threadName
      (mkRun [GetThreadInfo id] (cacheThread this data)
         (Resolve (Detached (if Thread.hasName data then data
                             else Thread.setName data threadName)))).
(** * Properties *)

(** ** Sanity checks of the string and dictionary operations *)

Example trim_ex : JSString.trim ("  unlock " ++ JSString.LF) = "unlock".
Proof. reflexivity. Qed.

Example split_ex : JSString.split " " "a  b c" = ["a"; ""; "b"; "c"].
Proof. reflexivity. Qed.

Example replace_ex :
  JSString.replace JSString.LF "" ("a" ++ JSString.LF ++ "b" ++ JSString.LF)
  = "ab" ++ JSString.LF.
Proof. reflexivity. Qed.

Example lower_ex : JSString.toLowerCase "Bob Smith" = "bob smith".
Proof. reflexivity. Qed.

Example keys_ex :
  JSObject.keys
    (JSObject.set (JSObject.set (JSObject.set (JSObject.set JSObject.empty
       "Bob" 1) "10" 2) "Alice" 3) "9" 4)
  = ["9"; "10"; "Bob"; "Alice"].
Proof. reflexivity. Qed.

Example keys_ex2 :
  JSObject.keys
    (JSObject.set (JSObject.set (JSObject.set JSObject.empty
       "01" 1) "4294967295" 2) "4294967294" 3)
  = ["4294967294"; "01"; "4294967295"].
Proof. reflexivity. Qed.



(** ** Strings *)

Lemma append_assoc (s1 s2 s3 : string) : (s1 ++ s2) ++ s3 = s1 ++ (s2 ++ s3).
Proof. induction s1 as [|c s1 IH]; simpl; [reflexivity|now rewrite IH]. Qed.

Lemma split_nonempty (sep : ascii) (s : string) : JSString.split sep s <> [].
Proof.
  destruct s as [|c s]; simpl; [discriminate|].
  destruct (Ascii.eqb c sep); [discriminate|].
  destruct (JSString.split sep s); discriminate.
Qed.

(** Joining what [split] produced, with the same separator, gives the string
    back. *)
Lemma join_split (sep : ascii) (s : string) :
  JSString.join (String sep "") (JSString.split sep s) = s.
Proof.
  unfold JSString.join.
  induction s as [|c s IH]; simpl; [reflexivity|].
  pose proof (split_nonempty sep s) as Hne.
  destruct (Ascii.eqb c sep) eqn:E.
  - apply Ascii.eqb_eq in E; subst c.
    destruct (JSString.split sep s) as [|h t] eqn:Hs; [congruence|].
    change (String.concat (String sep "") ("" :: h :: t))
      with (String sep (String.concat (String sep "") (h :: t))).
    now rewrite IH.
  - destruct (JSString.split sep s) as [|h t] eqn:Hs; [congruence|].
    destruct t as [|h' t]; simpl in *; now rewrite IH.
Qed.

Lemma prefix_unit (c d : ascii) (s : string) :
  String.prefix (String c "") (String d s) = Ascii.eqb d c.
Proof.
  simpl. destruct (ascii_dec c d) as [->|Hne].
  - rewrite Ascii.eqb_refl. now destruct s.
  - symmetry. apply Ascii.eqb_neq. congruence.
Qed.

(** Replacing a code unit that does not occur changes nothing. *)
Lemma replace_absent (c : ascii) (rep s : string) :
  JSString.includes c s = false -> JSString.replace (String c "") rep s = s.
Proof.
  induction s as [|d s IH]; intros H.
  - reflexivity.
  - simpl in H. apply orb_false_iff in H as [Hd Hs].
    cbn [JSString.replace]. rewrite prefix_unit, Hd. now rewrite IH.
Qed.

(** Trimming keeps a first code unit that is no white space. *)
Lemma trim_head (c : ascii) (s : string) :
  JSString.isWhiteSpace c = false ->
  exists r, JSString.trim (String c s) = String c r.
Proof.
  intros Hc. unfold JSString.trim.
  cbn [JSString.trimStart]. rewrite Hc. cbn [JSString.trimEnd]. rewrite Hc.
  destruct (JSString.trimEnd s); eauto.
Qed.

Lemma length_zero_iff (s : string) : Nat.eqb (String.length s) 0 = true <-> s = "".
Proof.
  destruct s; simpl; split; intros H; try reflexivity; discriminate.
Qed.

(** ** Dictionaries *)

Section JSObjectFacts.

Context {V : Type}.
Implicit Types (o : JSObject.t V) (k : string) (v : V).

Lemma get_set o k v k' :
  JSObject.get (JSObject.set o k v) k'
  = if String.eqb k k' then Some v else JSObject.get o k'.
Proof.
  induction o as [|[k0 v0] o IH]; simpl.
  - reflexivity.
  - destruct (String.eqb k0 k) eqn:E0; simpl.
    + apply String.eqb_eq in E0; subst k0.
      now destruct (String.eqb k k').
    + destruct (String.eqb k0 k') eqn:E1.
      * apply String.eqb_eq in E1; subst k0.
        rewrite String.eqb_sym in E0. now rewrite E0.
      * exact IH.
Qed.

Lemma get_set_same o k v : JSObject.get (JSObject.set o k v) k = Some v.
Proof. now rewrite get_set, String.eqb_refl. Qed.

Lemma get_set_other o k v k' :
  k <> k' -> JSObject.get (JSObject.set o k v) k' = JSObject.get o k'.
Proof.
  intros H. rewrite get_set.
  apply String.eqb_neq in H. now rewrite H.
Qed.

Lemma get_of_key o k :
  In k (map fst o) -> exists v, JSObject.get o k = Some v.
Proof.
  induction o as [|[k0 v0] o IH]; simpl; [tauto|].
  intros [->|H].
  - rewrite String.eqb_refl. eauto.
  - destruct (String.eqb k0 k); eauto.
Qed.

End JSObjectFacts.

Lemma insertIndex_In (x y : N * string) (l : list (N * string)) :
  In y (JSObject.insertIndex x l) <-> y = x \/ In y l.
Proof.
  induction l as [|z l IH]; simpl.
  - intuition.
  - destruct (fst x <=? fst z)%N; simpl; rewrite ?IH; intuition.
Qed.

Lemma indexKeys_In (k : string) (ks : list string) :
  In k (map snd (JSObject.indexKeys ks))
  <-> In k ks /\ JSObject.isArrayIndex k = true.
Proof.
  unfold JSObject.isArrayIndex.
  induction ks as [|k0 ks IH]; simpl.
  - tauto.
  - destruct (JSObject.arrayIndex k0) as [n|] eqn:E.
    + rewrite in_map_iff. split.
      * intros [[m k1] [Hk Hin]]. simpl in Hk; subst k1.
        apply insertIndex_In in Hin as [Heq|Hin].
        -- inversion Heq; subst. rewrite E. auto.
        -- assert (H : In k (map snd (JSObject.indexKeys ks)))
             by (apply in_map_iff; exists (m, k); auto).
           apply IH in H. tauto.
      * intros [[->|Hin] Hidx].
        -- exists (n, k). split; [reflexivity|]. apply insertIndex_In. auto.
        -- assert (H : In k (map snd (JSObject.indexKeys ks))) by (apply IH; auto).
           apply in_map_iff in H as [[m k1] [Hk H]]. simpl in Hk; subst k1.
           exists (m, k). split; [reflexivity|]. apply insertIndex_In. auto.
    + rewrite IH. split.
      * tauto.
      * intros [[->|Hin] Hidx]; [|tauto].
        rewrite E in Hidx. discriminate.
Qed.

(** [Object.keys] lists exactly the own keys. *)
Lemma keys_In {V : Type} (o : JSObject.t V) (k : string) :
  In k (JSObject.keys o) <-> In k (map fst o).
Proof.
  unfold JSObject.keys. rewrite in_app_iff, indexKeys_In, filter_In.
  destruct (JSObject.isArrayIndex k); simpl; intuition discriminate.
Qed.

Lemma find_none_iff {A : Type} (p : A -> bool) (l : list A) :
  find p l = None <-> forall x, In x l -> p x = false.
Proof.
  split.
  - apply find_none.
  - induction l as [|a l IH]; simpl; intros H; [reflexivity|].
    rewrite (H a) by auto. apply IH. auto.
Qed.

(** ** The thread cache: [cacheThread] *)

Lemma thread_eta (t : Thread.t) :
  {| Thread.name := Thread.name t;
     Thread.threadID := Thread.threadID t;
     Thread.color := Thread.color t;
     Thread.lastMessageTimestamp := Thread.lastMessageTimestamp t;
     Thread.unreadCount := Thread.unreadCount t |} = t.
Proof. now destruct t. Qed.

(** What [cacheThread] leaves under an id. *)
Lemma getById_cacheThread (this : Messer.t) (t : Thread.t) (k : string) :
  getById (cacheThread this t) k
  = if String.eqb (Thread.threadID t) k then Some t else getById this k.
Proof.
  unfold getById, cacheThread. rewrite thread_eta.
  destruct (Thread.name t) as [n|]; [destruct (JSString.truthy n)|];
    simpl; now rewrite get_set.
Qed.

Lemma get_assign {V : Type} (o : JSObject.t V) (k : string) (v : V) (k' : string) :
  JSObject.get (JSObject.assign o k v) k'
  = if String.eqb k k' && negb (String.eqb k' "__proto__")
    then Some v
    else JSObject.get o k'.
Proof.
  unfold JSObject.assign. destruct (String.eqb k "__proto__") eqn:Ep.
  - apply String.eqb_eq in Ep; subst k.
    destruct (String.eqb "__proto__" k') eqn:E; [|reflexivity].
    apply String.eqb_eq in E; subst k'. reflexivity.
  - rewrite get_set. destruct (String.eqb k k') eqn:E; [|reflexivity].
    apply String.eqb_eq in E; subst k'. now rewrite Ep.
Qed.

(** What [cacheThread] leaves under a name. *)
Lemma getIdByName_cacheThread (this : Messer.t) (t : Thread.t) (n : string) :
  getIdByName (cacheThread this t) n
  = if isNamed n t then Some (Thread.threadID t) else getIdByName this n.
Proof.
  unfold getIdByName, cacheThread, isNamed, Thread.hasName.
  destruct (Thread.name t) as [m|]; [destruct (JSString.truthy m)|];
    simpl; try reflexivity.
  now rewrite get_assign.
Qed.

(** [cacheThread] touches nothing but the two dictionaries. *)
Lemma cacheThread_frame (this : Messer.t) (t : Thread.t) :
  Messer.messen (cacheThread this t) = Messer.messen this
  /\ Messer.unreadMessagesCount (cacheThread this t) = Messer.unreadMessagesCount this
  /\ Messer.lastThread (cacheThread this t) = Messer.lastThread this
  /\ Messer.debug (cacheThread this t) = Messer.debug this.
Proof.
  unfold cacheThread.
  destruct (Thread.name t) as [n|]; [destruct (JSString.truthy n)|];
    simpl; auto.
Qed.

Lemma isNamed_spec (n : string) (t : Thread.t) :
  isNamed n t = true
  <-> Thread.name t = Some n /\ JSString.truthy n = true /\ n <> "__proto__".
Proof.
  unfold isNamed, Thread.hasName.
  destruct (Thread.name t) as [m|]; simpl.
  - rewrite !andb_true_iff, negb_true_iff, String.eqb_eq, String.eqb_neq. split.
    + intros [[Hm ->] Hp]. auto.
    + intros (Heq & Hn & Hp). inversion Heq; subst. auto.
  - split; [discriminate|]. intros [H _]. discriminate.
Qed.

(** Insert then look up: a thread with a non-empty name other than
    [__proto__] is found by its name and by its id right after it is
    cached. *)
Lemma cacheThread_lookup (this : Messer.t) (t : Thread.t) (n : string) :
  Thread.name t = Some n ->
  JSString.truthy n = true ->
  n <> "__proto__" ->
  getIdByName (cacheThread this t) n = Some (Thread.threadID t)
  /\ getById (cacheThread this t) (Thread.threadID t) = Some t.
Proof.
  intros Hname Hn Hp. split.
  - rewrite getIdByName_cacheThread.
    assert (isNamed n t = true) as -> by (apply isNamed_spec; auto).
    reflexivity.
  - now rewrite getById_cacheThread, String.eqb_refl.
Qed.

Example cacheThread_lookup_alice :
  getIdByName (cacheThread (sessionOn offline [bob]) (plainThread (Some "Alice") "1"))
    "Alice" = Some "1"
  /\ getById (cacheThread (sessionOn offline [bob]) (plainThread (Some "Alice") "1")) "1"
     = Some (plainThread (Some "Alice") "1").
Proof. split; reflexivity. Qed.

(** C3. The look-up by name is missed for a thread whose name is the word
    [__proto__]: the name is not empty and [cacheThread] caches the thread
    under its id, a record equal to it, but the assignment
    [threadNameToIdMap["__proto__"] = "5"] reaches the setter of
    [Object.prototype], which ignores a string, so the name index is left as
    it was and the read of that name does not give the id. For every other
    non-empty name both look-ups succeed ([cacheThread_lookup]). *)
Theorem cacheThread_proto_name_unindexed :
  let this := sessionOn offline [bob] in
  let t := plainThread (Some "__proto__") "5" in
  Thread.name t = Some "__proto__"
  /\ JSString.truthy "__proto__" = true
  /\ getById (cacheThread this t) (Thread.threadID t) = Some t
  /\ Messer.threadNameToIdMap (cacheThread this t) = Messer.threadNameToIdMap this
  /\ getIdByName (cacheThread this t) "__proto__" <> Some (Thread.threadID t).
Proof. repeat split. discriminate. Qed.

(** The overwrite law: of two writes with the same id, the cache keeps the
    second. *)
Lemma cacheThread_overwrites (this : Messer.t) (t1 t2 : Thread.t) :
  Thread.threadID t1 = Thread.threadID t2 ->
  getById (cacheThread (cacheThread this t1) t2) (Thread.threadID t1) = Some t2.
Proof.
  intros H. rewrite getById_cacheThread, <- H. now rewrite String.eqb_refl.
Qed.

(** *** Sequences of [cacheThread] calls *)

Lemma cacheAll_snoc (this : Messer.t) (ts : list Thread.t) (t : Thread.t) :
  cacheAll this (ts ++ [t])%list = cacheThread (cacheAll this ts) t.
Proof. unfold cacheAll. now rewrite fold_left_app. Qed.

Lemma lastWithId_snoc (k : string) (ts : list Thread.t) (t : Thread.t) :
  lastWithId k (ts ++ [t])%list
  = if String.eqb (Thread.threadID t) k then Some t else lastWithId k ts.
Proof. unfold lastWithId. now rewrite rev_unit. Qed.

Lemma lastWithName_snoc (n : string) (ts : list Thread.t) (t : Thread.t) :
  lastWithName n (ts ++ [t])%list
  = if isNamed n t then Some t else lastWithName n ts.
Proof. unfold lastWithName. now rewrite rev_unit. Qed.

(** The cache after a sequence of writes: under each id, the last thread
    written with that id, else what was there before. *)
Lemma getById_cacheAll (this : Messer.t) (ts : list Thread.t) (k : string) :
  getById (cacheAll this ts) k
  = match lastWithId k ts with
    | Some t => Some t
    | None => getById this k
    end.
Proof.
  induction ts as [|t ts IH] using rev_ind.
  - reflexivity.
  - rewrite cacheAll_snoc, getById_cacheThread, lastWithId_snoc.
    now destruct (String.eqb (Thread.threadID t) k).
Qed.

(** The name index after a sequence of writes: under each name, the id of
    the last thread written with that name. *)
Lemma getIdByName_cacheAll (this : Messer.t) (ts : list Thread.t) (n : string) :
  getIdByName (cacheAll this ts) n
  = match lastWithName n ts with
    | Some t => Some (Thread.threadID t)
    | None => getIdByName this n
    end.
Proof.
  induction ts as [|t ts IH] using rev_ind.
  - reflexivity.
  - rewrite cacheAll_snoc, getIdByName_cacheThread, lastWithName_snoc.
    now destruct (isNamed n t).
Qed.


Lemma lastWithName_sound (n : string) (ts : list Thread.t) (t : Thread.t) :
  lastWithName n ts = Some t ->
  In t ts /\ Thread.name t = Some n /\ JSString.truthy n = true.
Proof.
  unfold lastWithName. intros H. apply find_some in H as [Hin Hp].
  split; [now apply in_rev|]. apply isNamed_spec in Hp. tauto.
Qed.

Lemma lastWithName_complete (n : string) (ts : list Thread.t) (t : Thread.t) :
  In t ts -> Thread.name t = Some n -> JSString.truthy n = true ->
  n <> "__proto__" ->
  exists t', lastWithName n ts = Some t'.
Proof.
  intros Hin Hname Hn Hp. unfold lastWithName.
  destruct (find (isNamed n) (rev ts)) as [t'|] eqn:E; [eauto|].
  exfalso. apply find_none with (x := t) in E; [|now rewrite <- in_rev].
  assert (isNamed n t = true) by (apply isNamed_spec; auto). congruence.
Qed.

Lemma lastWithId_sound (k : string) (ts : list Thread.t) (t : Thread.t) :
  lastWithId k ts = Some t -> In t ts /\ Thread.threadID t = k.
Proof.
  unfold lastWithId. intros H. apply find_some in H as [Hin Hp].
  split; [now apply in_rev|]. now apply String.eqb_eq.
Qed.

(** C4 (as amended). After every sequence of [cacheThread] calls on a new
    session, for thread ids and names other than the word [__proto__]: a
    thread is cached under its own id; if a cached thread has a non-empty
    name, the name index maps that exact name to the id of the thread most
    recently cached with that name, which is a cached id (the thread's own
    id unless a later call cached another id under the same name); two
    distinct names map to the same id only if that id was cached under both
    names; and under each id the cache holds the last thread written with
    it, later writes overwriting earlier ones. (A record written under the
    id [__proto__] becomes the prototype of the cache, through which reads
    at other keys fall; what the cache then answers is left open here.) *)
Theorem cache_invariant (m : Messen.t) (dbg : bool) (ts : list Thread.t) :
  Forall (fun t => Thread.threadID t <> "__proto__") ts ->
  let s := cacheAll (Messer.new m dbg) ts in
  cachedUnderOwnId s
  /\ (forall k t n,
        getById s k = Some t ->
        Thread.name t = Some n ->
        JSString.truthy n = true ->
        n <> "__proto__" ->
        exists t',
          lastWithName n ts = Some t'
          /\ getIdByName s n = Some (Thread.threadID t')
          /\ getById s (Thread.threadID t') <> None
          /\ (t' = t -> getIdByName s n = Some k))
  /\ (forall n1 n2 i,
        n1 <> n2 ->
        getIdByName s n1 = Some i ->
        getIdByName s n2 = Some i ->
        exists t1 t2,
          In t1 ts /\ In t2 ts
          /\ Thread.threadID t1 = i /\ Thread.threadID t2 = i
          /\ Thread.name t1 = Some n1 /\ Thread.name t2 = Some n2)
  /\ (forall k t, getById s k = Some t <-> lastWithId k ts = Some t).
Proof.
  intros _ s.
  assert (HD : forall k, getById s k = lastWithId k ts).
  { intros k. unfold s. rewrite getById_cacheAll.
    now destruct (lastWithId k ts). }
  assert (HE : forall n, getIdByName s n
                         = option_map Thread.threadID (lastWithName n ts)).
  { intros n. unfold s. rewrite getIdByName_cacheAll.
    now destruct (lastWithName n ts). }
  assert (HA : cachedUnderOwnId s).
  { intros k t H. rewrite HD in H. now apply lastWithId_sound in H. }
  split; [exact HA|]. split; [|split].
  - intros k t n Hk Hname Hn Hp.
    pose proof Hk as Hin. rewrite HD in Hin. apply lastWithId_sound in Hin as [Hin _].
    destruct (lastWithName_complete n ts t Hin Hname Hn Hp) as [t' Ht'].
    exists t'. rewrite HE, Ht'. simpl.
    split; [reflexivity|]. split; [reflexivity|]. split.
    + apply lastWithName_sound in Ht' as [Hin' _].
      rewrite HD. unfold lastWithId.
      intros Hnone. apply find_none with (x := t') in Hnone; [|now rewrite <- in_rev].
      rewrite String.eqb_refl in Hnone. discriminate.
    + intros ->. f_equal. now apply HA.
  - intros n1 n2 i _ H1 H2. rewrite HE in H1, H2.
    destruct (lastWithName n1 ts) as [t1|] eqn:E1; [|discriminate].
    destruct (lastWithName n2 ts) as [t2|] eqn:E2; [|discriminate].
    simpl in H1, H2.
    apply lastWithName_sound in E1 as (Hin1 & Hn1 & _).
    apply lastWithName_sound in E2 as (Hin2 & Hn2 & _).
    exists t1, t2. repeat split; congruence.
  - intros k t. now rewrite HD.
Qed.

Lemma cache_invariant_witness :
  let ts := [plainThread (Some "Alice") "1"; plainThread None "7";
             plainThread (Some "Alicia") "1"] in
  let s := cacheAll (sessionOn offline []) ts in
  Forall (fun t => Thread.threadID t <> "__proto__") ts
  /\ cachedUnderOwnId s
  /\ (forall k t, getById s k = Some t <-> lastWithId k ts = Some t).
Proof.
  assert (H : Forall (fun t => Thread.threadID t <> "__proto__")
                [plainThread (Some "Alice") "1"; plainThread None "7";
                 plainThread (Some "Alicia") "1"])
    by (repeat constructor; discriminate).
  split; [exact H|].
  destruct (cache_invariant (Messen.mk offline (User.mk "100" "Me" [])) false _ H)
    as (H1 & _ & _ & H4).
  split; [exact H1|exact H4].
Defined.

(** C4, as the data model words it, does not hold: once two threads with
    the same name are cached, the older one is still cached with that name,
    but the index maps the name to the younger one. *)
Lemma cache_invariant_shared_name :
  let s := cacheAll (sessionOn offline [])
             [plainThread (Some "Alice") "1"; plainThread (Some "Alice") "2"] in
  getById s "1" = Some (plainThread (Some "Alice") "1")
  /\ getIdByName s "Alice" = Some "2"
  /\ ~ nameIndexed s.
Proof.
  split; [reflexivity|]. split; [reflexivity|].
  intros H.
  specialize (H "1" (plainThread (Some "Alice") "1") "Alice"
                eq_refl eq_refl eq_refl).
  discriminate H.
Qed.

(** ** Fetch or cache: [getThreadById] *)

(** The three ways a call that misses the cache can end. *)
Lemma getThreadById_miss (this : Messer.t) (threadID : string) (requireName : bool) :
  getById this threadID = None ->
  let r := getThreadById this threadID requireName in
  events r = [GetThreadInfo threadID]
  /\ ((exists err,
         Api.getThreadInfo (Messen.api (Messer.messen this)) threadID = Err err
         /\ result r = Reject (BackendError err) /\ session r = this)
      \/ (exists data,
            Api.getThreadInfo (Messen.api (Messer.messen this)) threadID = Data data
            /\ Thread.hasName data = false /\ requireName = true
            /\ threadID <> User.id (Messen.user (Messer.messen this))
            /\ find (fun user => String.eqb (Friend.userID user) threadID)
                 (User.friends (Messen.user (Messer.messen this))) = None
            /\ result r = Reject FriendNotFound /\ session r = this)
      \/ (exists data thread,
            Api.getThreadInfo (Messen.api (Messer.messen this)) threadID = Data data
            /\ Thread.threadID thread = Thread.threadID data
            /\ result r = Resolve (Detached thread)
            /\ session r = cacheThread this thread)).
Proof.
  unfold getById, getThreadById. intros Hmiss. rewrite Hmiss.
  destruct (Api.getThreadInfo (Messen.api (Messer.messen this)) threadID)
    as [err|data] eqn:Hinfo.
  - simpl. split; [reflexivity|]. left. eauto.
  - destruct (Thread.hasName data) eqn:Hname; simpl.
    + split; [reflexivity|]. right; right. exists data, data. auto.
    + destruct requireName; simpl.
      * destruct (String.eqb threadID (User.id (Messen.user (Messer.messen this))))
          eqn:Hme; simpl.
        -- split; [reflexivity|]. right; right.
           eexists data, (Thread.setName data _). repeat split; reflexivity.
        -- destruct (find _ (User.friends (Messen.user (Messer.messen this))))
             as [friend|] eqn:Hfriend; simpl.
           ++ split; [reflexivity|]. right; right.
              eexists data, (Thread.setName data _). repeat split; reflexivity.
           ++ split; [reflexivity|]. right; left.
              exists data. apply String.eqb_neq in Hme. auto 10.
      * split; [reflexivity|]. right; right. exists data, data. auto.
Qed.

(** A call that hits the cache. *)
Lemma getThreadById_hit (this : Messer.t) (threadID : string)
    (requireName : bool) (thread : Thread.t) :
  getById this threadID = Some thread ->
  getThreadById this threadID requireName
  = mkRun [] this (Resolve (CacheEntry threadID thread)).
Proof. unfold getById, getThreadById. now intros ->. Qed.

(** C9. For every id present in the thread cache, [getThreadById(id,
    requireName)] resolves with the cached object itself, unchanged,
    whatever [requireName] is: it calls nothing and leaves the session as it
    was, a cached thread without a name is returned without a name even
    under [requireName], and the call does not fail with [FriendNotFound],
    which therefore arises on the backend path only. *)
Theorem getThreadById_cache_hit (this : Messer.t) (id : string)
    (requireName : bool) (t : Thread.t) :
  getById this id = Some t ->
  getThreadById this id requireName = mkRun [] this (Resolve (CacheEntry id t))
  /\ Thread.name (target (CacheEntry id t)) = Thread.name t
  /\ getById (session (getThreadById this id requireName)) id = Some t
  /\ backendCalls (events (getThreadById this id requireName)) = 0
  /\ result (getThreadById this id requireName) <> Reject FriendNotFound.
Proof.
  intros H. rewrite (getThreadById_hit this id requireName t H). simpl.
  repeat split; try assumption. discriminate.
Qed.

Lemma getThreadById_cache_hit_witness :
  let s := cacheThread (sessionOn offline [bob]) (plainThread None "7") in
  getById s "7" = Some (plainThread None "7")
  /\ getThreadById s "7" true
     = mkRun [] s (Resolve (CacheEntry "7" (plainThread None "7"))).
Proof.
  split; [reflexivity|].
  apply (getThreadById_cache_hit
           (cacheThread (sessionOn offline [bob]) (plainThread None "7"))
           "7" true (plainThread None "7")).
  reflexivity.
Defined.

(** C10. [getThreadById] is atomic on failure: whenever it rejects, the
    session is left as it was, so neither the thread cache nor the name
    index is modified; and a rejection is either the error of the backend's
    callback, or [FriendNotFound] under [requireName] for a nameless thread
    that is neither the session user's nor a friend's. *)
Theorem getThreadById_failure_atomic (this : Messer.t) (id : string)
    (requireName : bool) (reason : Reason) :
  result (getThreadById this id requireName) = Reject reason ->
  session (getThreadById this id requireName) = this
  /\ Messer.threadCache (session (getThreadById this id requireName))
     = Messer.threadCache this
  /\ Messer.threadNameToIdMap (session (getThreadById this id requireName))
     = Messer.threadNameToIdMap this
  /\ ((exists err,
         Api.getThreadInfo (Messen.api (Messer.messen this)) id = Err err
         /\ reason = BackendError err)
      \/ (reason = FriendNotFound
          /\ requireName = true
          /\ id <> User.id (Messen.user (Messer.messen this))
          /\ find (fun user => String.eqb (Friend.userID user) id)
               (User.friends (Messen.user (Messer.messen this))) = None
          /\ exists data,
               Api.getThreadInfo (Messen.api (Messer.messen this)) id = Data data
               /\ Thread.hasName data = false)).
Proof.
  intros Hrej.
  destruct (getById this id) as [t|] eqn:Hc.
  - rewrite (getThreadById_hit this id requireName t Hc) in Hrej.
    discriminate.
  - pose proof (getThreadById_miss this id requireName Hc) as [_ Hcases].
    cbv zeta in Hcases.
    destruct Hcases as [(err & Hinfo & Hres & Hs)
                       |[(data & Hinfo & Hname & Hreq & Hme & Hfriend & Hres & Hs)
                        |(data & thread & _ & _ & Hres & _)]].
    + rewrite Hs. repeat split. left. exists err. split; congruence.
    + rewrite Hs. repeat split. right.
      repeat split; try assumption; [congruence|eauto].
    + congruence.
Qed.

Lemma getThreadById_failure_atomic_witness :
  result (getThreadById (cacheThread (sessionOn online []) (plainThread (Some "Alice") "1"))
            "7" true) = Reject FriendNotFound
  /\ session (getThreadById (cacheThread (sessionOn online []) (plainThread (Some "Alice") "1"))
                "7" true)
     = cacheThread (sessionOn online []) (plainThread (Some "Alice") "1").
Proof.
  split; [reflexivity|].
  apply (getThreadById_failure_atomic
           (cacheThread (sessionOn online []) (plainThread (Some "Alice") "1"))
           "7" true FriendNotFound).
  reflexivity.
Defined.

(** C2. With a backend that answers [getThreadInfo(id)] with the record of
    the thread it was asked for, every successful return of
    [getThreadById(id, requireName)], be it a cache hit or a fetch, is
    reflected in the thread cache afterward: the cache holds the returned
    thread under [id], and a second [getThreadById(id)] is a cache hit that
    returns it without any backend call; so after a first call that had to
    reach the backend and succeeded, the two calls perform exactly one
    [getThreadInfo] call. *)
Theorem getThreadById_caches (this : Messer.t) (id : string)
    (requireName requireName2 : bool) (ref : Ref) :
  (forall data,
     Api.getThreadInfo (Messen.api (Messer.messen this)) id = Data data ->
     Thread.threadID data = id) ->
  result (getThreadById this id requireName) = Resolve ref ->
  let first := getThreadById this id requireName in
  let second := getThreadById (session first) id requireName2 in
  getById (session first) id = Some (target ref)
  /\ second = mkRun [] (session first) (Resolve (CacheEntry id (target ref)))
  /\ backendCalls (events second) = 0
  /\ (getById this id = None ->
      events first = [GetThreadInfo id]
      /\ backendCalls (events first ++ events second)%list = 1).
Proof.
  intros Hecho Hres first second.
  assert (Hc : getById (session first) id = Some (target ref)).
  { destruct (getById this id) as [t|] eqn:Hhit.
    - unfold first in *. rewrite (getThreadById_hit this id requireName t Hhit) in *.
      simpl in *. inversion Hres; subst ref. exact Hhit.
    - pose proof (getThreadById_miss this id requireName Hhit) as [_ Hcases].
      cbv zeta in Hcases. fold first in Hcases.
      destruct Hcases as [(err & _ & Hr & _)
                         |[(data & _ & _ & _ & _ & _ & Hr & _)
                          |(data & thread & Hinfo & Hid & Hr & Hs)]];
        unfold first in Hr; rewrite Hr in Hres; try discriminate.
      inversion Hres; subst ref. simpl. rewrite Hs, getById_cacheThread.
      rewrite Hid, (Hecho data Hinfo). now rewrite String.eqb_refl. }
  pose proof (getThreadById_hit (session first) id requireName2 (target ref) Hc)
    as Heq.
  fold second in Heq.
  split; [exact Hc|]. split; [exact Heq|]. split; [now rewrite Heq|].
  intros Hmiss.
  pose proof (getThreadById_miss this id requireName Hmiss) as [Hev _].
  cbv zeta in Hev. fold first in Hev.
  split; [exact Hev|]. now rewrite Hev, Heq.
Qed.

Lemma getThreadById_caches_witness :
  let first := getThreadById (sessionOn online []) "7" false in
  let second := getThreadById (session first) "7" true in
  (forall data,
     Api.getThreadInfo (Messen.api (Messer.messen (sessionOn online []))) "7"
     = Data data ->
     Thread.threadID data = "7")
  /\ result first = Resolve (Detached (plainThread None "7"))
  /\ getById (sessionOn online []) "7" = None
  /\ getById (session first) "7" = Some (plainThread None "7")
  /\ second = mkRun [] (session first)
                (Resolve (CacheEntry "7" (plainThread None "7")))
  /\ backendCalls (events first ++ events second)%list = 1.
Proof.
  assert (Hecho : forall data,
            Api.getThreadInfo (Messen.api (Messer.messen (sessionOn online []))) "7"
            = Data data ->
            Thread.threadID data = "7").
  { intros data H. vm_compute in H. inversion H. reflexivity. }
  split; [exact Hecho|]. split; [reflexivity|]. split; [reflexivity|].
  destruct (getThreadById_caches (sessionOn online []) "7" false true
              (Detached (plainThread None "7")) Hecho eq_refl)
    as (H1 & H2 & _ & H4).
  split; [exact H1|]. split; [exact H2|].
  exact (proj2 (H4 eq_refl)).
Defined.

(** ** Resolving a typed name: [getThreadByName] *)

(** The thread made up from a friend. *)
Lemma friend_fallback (this : Messer.t) (threadName : string) :
  (forall n id,
     getIdByName this n = Some id ->
     JSString.startsWith (JSString.toLowerCase n) (JSString.toLowerCase threadName)
     = false) ->
  match getIdByName this "undefined" with
  | Some id => JSString.truthy id = false
  | None => True
  end ->
  getThreadByName this threadName
  = match find (fun n => JSString.startsWith (JSString.toLowerCase (Friend.fullName n))
                           (JSString.toLowerCase threadName))
               (User.friends (Messen.user (Messer.messen this))) with
    | None => mkRun [] this (Reject ThreadNotFound)
    | Some friend =>
        mkRun [] this
          (Resolve (Detached {| Thread.name := Some (Friend.fullName friend);
                                Thread.threadID := Friend.userID friend;
                                Thread.color := None;
                                Thread.lastMessageTimestamp := None;
                                Thread.unreadCount := None |}))
    end.
Proof.
  unfold getIdByName. intros Hnames Hundefined. unfold getThreadByName.
  assert (Hfind : find (fun n => JSString.startsWith (JSString.toLowerCase n)
                                   (JSString.toLowerCase threadName))
                       (JSObject.keys (Messer.threadNameToIdMap this)) = None).
  { apply find_none_iff. intros n Hin.
    apply keys_In, get_of_key in Hin as [id Hid]. eauto. }
  rewrite Hfind. simpl JSObject.toPropertyKey.
  destruct (JSObject.get (Messer.threadNameToIdMap this) "undefined") as [id|].
  - now rewrite Hundefined.
  - reflexivity.
Qed.

(** With an empty cache and the friend Bob Smith, "bob" resolves to a thread
    made up from the friend, and the cache stays empty. *)
Example getThreadByName_bob :
  getThreadByName (sessionOn offline [bob]) "bob"
  = mkRun [] (sessionOn offline [bob])
      (Resolve (Detached {| Thread.name := Some "Bob Smith";
                            Thread.threadID := "42";
                            Thread.color := None;
                            Thread.lastMessageTimestamp := None;
                            Thread.unreadCount := None |})).
Proof. reflexivity. Qed.

(** The prefix match is blind to case: "al" finds the cached "Alice". *)
Example getThreadByName_al :
  result (getThreadByName
            (cacheThread (sessionOn offline [bob]) (plainThread (Some "Alice") "1")) "al")
  = Resolve (CacheEntry "1" (plainThread (Some "Alice") "1")).
Proof. reflexivity. Qed.

(** A name that matches neither a cached thread nor a friend. *)
Example getThreadByName_nobody :
  result (getThreadByName
            (cacheThread (sessionOn offline [bob]) (plainThread (Some "Alice") "1")) "zed")
  = Reject ThreadNotFound.
Proof. reflexivity. Qed.

(** A cached thread that lost its name is stamped with the typed name, in
    the cache itself, for the resolved object is the cached one. *)
Example getThreadByName_stamps :
  let this := cacheAll (sessionOn offline [])
                [plainThread (Some "Alice") "1"; plainThread None "1"] in
  result (getThreadByName this "al")
  = Resolve (CacheEntry "1" (plainThread (Some "al") "1"))
  /\ getById (session (getThreadByName this "al")) "1"
     = Some (plainThread (Some "al") "1").
Proof. split; reflexivity. Qed.

(** C6. The fallback to the friends directory is missed on a session that
    has cached a thread whose name is the word "undefined": no cached name
    starts with "bob" and the friend Bob Smith does, yet the friends are not
    scanned. The search for a name yields [undefined], the read
    [threadNameToIdMap[undefined]] reads the property "undefined", and the
    call resolves with the cached thread 7 instead of a thread made up from
    the friend. Without such an entry the fallback works ([friend_fallback]). *)
Theorem getThreadByName_undefined_shadows_friend :
  let this := cacheThread (sessionOn offline [bob])
                (plainThread (Some "undefined") "7") in
  find (fun n => JSString.startsWith (JSString.toLowerCase n)
                   (JSString.toLowerCase "bob"))
       (JSObject.keys (Messer.threadNameToIdMap this)) = None
  /\ find (fun n => JSString.startsWith (JSString.toLowerCase (Friend.fullName n))
                      (JSString.toLowerCase "bob"))
          (User.friends (Messen.user (Messer.messen this))) = Some bob
  /\ getThreadByName this "bob"
     = mkRun [] this (Resolve (CacheEntry "7" (plainThread (Some "undefined") "7"))).
Proof. repeat split. Qed.

(** C7. The rejection with [ThreadNotFound] is missed on the same kind of
    session: "bob" is a prefix of no cached name and of no friend's name, yet
    the call does not reject; it resolves with the cached thread named
    "undefined", through the same read of the property "undefined". *)
Theorem getThreadByName_undefined_shadows_failure :
  let this := cacheThread (sessionOn offline [])
                (plainThread (Some "undefined") "7") in
  (forall n id,
     getIdByName this n = Some id ->
     JSString.startsWith (JSString.toLowerCase n) (JSString.toLowerCase "bob")
     = false)
  /\ User.friends (Messen.user (Messer.messen this)) = []
  /\ result (getThreadByName this "bob")
     = Resolve (CacheEntry "7" (plainThread (Some "undefined") "7"))
  /\ result (getThreadByName this "bob") <> Reject ThreadNotFound.
Proof.
  intros this. split; [|repeat split; discriminate].
  intros n id H. unfold this in H. rewrite getIdByName_cacheThread in H.
  destruct (isNamed n (plainThread (Some "undefined") "7")) eqn:E.
  - apply isNamed_spec in E as [E _]. inversion E; subst n. reflexivity.
  - discriminate H.
Qed.

(** ** Dispatching: [clear] and [processCommand] *)

Lemma clear_resets (this : Messer.t) :
  Messer.unreadMessagesCount (session (clear this)) = 0%Z.
Proof.
  unfold clear. destruct (Z.eqb (Messer.unreadMessagesCount this) 0) eqn:E; simpl.
  - now apply Z.eqb_eq.
  - reflexivity.
Qed.

Lemma clear_idle (this : Messer.t) :
  Messer.unreadMessagesCount this = 0%Z -> clear this = mkRun [] this tt.
Proof. unfold clear. intros ->. reflexivity. Qed.

(** The line the lock builds is the pinned line of the input without its
    first line feed. *)
Lemma locked_line (target localCommand : string) :
  ((("m " ++ JSString.DQUOTE) ++ target) ++ (JSString.DQUOTE ++ " "))
    ++ JSString.join " "
         (JSString.split " " (JSString.replace JSString.LF "" localCommand))
  = pinnedLine target (JSString.replace JSString.LF "" localCommand).
Proof.
  unfold pinnedLine. rewrite (join_split " "%char).
  now rewrite !append_assoc.
Qed.

Section DispatcherFacts.

Context {Handler : Type}.
Variable getCommandHandler : string -> option Handler.

(** What [processCommand] does while the lock is held. *)
Lemma processCommand_locked (target : string) (this : Messer.t) (rawCommand : string) :
  processCommand getCommandHandler (Some target) this rawCommand
  = let cleared := clear this in
    if String.eqb (JSString.trim rawCommand) ""
    then mkRun (events cleared) (session cleared) Resolved
    else
      let '(commandHandler, line) :=
        if String.eqb (JSString.trim rawCommand) "unlock"
        then (getCommandHandler "unlock", rawCommand)
        else (getCommandHandler "m",
              pinnedLine target (JSString.replace JSString.LF "" rawCommand)) in
      match commandHandler with
      | None => mkRun (events cleared) (session cleared) (Rejected InvalidCommand)
      | Some h => mkRun (events cleared) (session cleared) (Invoked h line)
      end.
Proof.
  unfold processCommand. cbv zeta. simpl lock.isLocked. cbv iota.
  simpl lock.getLockedTarget. rewrite locked_line.
  destruct (JSString.trim rawCommand) as [|c s]; reflexivity.
Qed.

(** C8. After any [processCommand] call, and so after any non-empty one,
    [unreadMessagesCount] is 0 whatever it was before; the reset is the first
    and only change [processCommand] itself makes to the session (the
    handler, if one is called, is handed the session after [clear]); and it
    is a no-op when the counter is already zero: the session is untouched
    and the terminal is not notified. *)
Theorem processCommand_resets_unread (lk : lock.t) (this : Messer.t)
    (rawCommand : string) :
  let r := processCommand getCommandHandler lk this rawCommand in
  Messer.unreadMessagesCount (session r) = 0%Z
  /\ session r = session (clear this)
  /\ events r = events (clear this)
  /\ (Messer.unreadMessagesCount this = 0%Z -> session r = this /\ events r = []).
Proof.
  intros r.
  assert (H : session r = session (clear this) /\ events r = events (clear this)).
  { unfold r, processCommand. cbv zeta.
    destruct (Nat.eqb (String.length (JSString.trim rawCommand)) 0);
      [now split|].
    destruct (if lock.isLocked lk then _ else _) as [[h|] line]; now split. }
  destruct H as [Hs He]. rewrite Hs, He.
  split; [apply clear_resets|]. split; [reflexivity|]. split; [reflexivity|].
  intros H0. now rewrite (clear_idle this H0).
Qed.

(** C5. While a target is pinned, an input whose trimmed form is exactly
    [unlock] reaches the registry's [unlock] handler and is handed over as
    it was typed, without the pinned rewrite: the handler called is not the
    [m] handler (when the registry tells the two apart) and the line is not
    the pinned line. The test for [unlock] comes first, so the rewrite
    branch is never entered for such an input. *)
Theorem locked_unlock_escapes (target : string) (this : Messer.t)
    (rawCommand : string) (unlockHandler : Handler) :
  JSString.trim rawCommand = "unlock" ->
  getCommandHandler "unlock" = Some unlockHandler ->
  processCommand getCommandHandler (Some target) this rawCommand
  = mkRun (events (clear this)) (session (clear this))
      (Invoked unlockHandler rawCommand)
  /\ (forall mHandler line,
        getCommandHandler "m" = Some mHandler ->
        mHandler <> unlockHandler ->
        result (processCommand getCommandHandler (Some target) this rawCommand)
        <> Invoked mHandler line)
  /\ (forall h body,
        result (processCommand getCommandHandler (Some target) this rawCommand)
        <> Invoked h (pinnedLine target body)).
Proof.
  intros Htrim Hunlock.
  rewrite processCommand_locked. cbv zeta. rewrite Htrim. simpl.
  rewrite Hunlock. split; [reflexivity|]. split.
  - intros mHandler line _ Hne Heq. simpl in Heq. congruence.
  - intros h body Heq. simpl in Heq. injection Heq as _ Hline.
    rewrite Hline in Htrim. unfold pinnedLine in Htrim.
    destruct (trim_head "m"
                (" " ++ JSString.DQUOTE ++ target ++ JSString.DQUOTE ++ " " ++ body)
                eq_refl) as [r Hr].
    simpl in Htrim, Hr. rewrite Hr in Htrim. discriminate.
Qed.

(** C1 (as amended). While a target [T] is pinned, every input line [L]
    whose trimmed form is neither empty nor exactly [unlock] reaches the
    registry's [m] handler with the line [m "T" L'], where [L'] is [L]
    without its first line feed; so the original line is appended verbatim
    whenever it holds no line feed. *)
Theorem lock_rewrite (target : string) (this : Messer.t) (rawCommand : string)
    (mHandler : Handler) :
  JSString.trim rawCommand <> "" ->
  JSString.trim rawCommand <> "unlock" ->
  getCommandHandler "m" = Some mHandler ->
  processCommand getCommandHandler (Some target) this rawCommand
  = mkRun (events (clear this)) (session (clear this))
      (Invoked mHandler
         (pinnedLine target (JSString.replace JSString.LF "" rawCommand)))
  /\ (JSString.includes (ascii_of_nat 10) rawCommand = false ->
      result (processCommand getCommandHandler (Some target) this rawCommand)
      = Invoked mHandler (pinnedLine target rawCommand)).
Proof.
  intros Hne Hnu Hm.
  apply String.eqb_neq in Hne, Hnu.
  rewrite processCommand_locked. cbv zeta. rewrite Hne, Hnu, Hm.
  split; [reflexivity|].
  intros Hlf. simpl. f_equal. unfold JSString.LF. now rewrite replace_absent.
Qed.

End DispatcherFacts.

Lemma locked_unlock_escapes_witness :
  JSString.trim (" unlock" ++ JSString.LF) = "unlock"
  /\ registry "unlock" = Some "unlock"
  /\ result (processCommand registry (Some "Alice") (sessionOn offline [bob])
               (" unlock" ++ JSString.LF))
     = Invoked "unlock" (" unlock" ++ JSString.LF).
Proof.
  split; [reflexivity|]. split; [reflexivity|].
  destruct (locked_unlock_escapes registry "Alice" (sessionOn offline [bob])
              (" unlock" ++ JSString.LF) "unlock" eq_refl eq_refl) as [H _].
  rewrite H. reflexivity.
Defined.

Lemma lock_rewrite_witness :
  JSString.trim "hello there" <> ""
  /\ JSString.trim "hello there" <> "unlock"
  /\ registry "m" = Some "m"
  /\ result (processCommand registry (Some "Alice") (sessionOn offline [bob])
               "hello there")
     = Invoked "m" ("m " ++ JSString.DQUOTE ++ "Alice" ++ JSString.DQUOTE
                      ++ " hello there").
Proof.
  assert (H1 : JSString.trim "hello there" <> "") by (vm_compute; discriminate).
  assert (H2 : JSString.trim "hello there" <> "unlock") by (vm_compute; discriminate).
  split; [exact H1|]. split; [exact H2|]. split; [reflexivity|].
  destruct (lock_rewrite registry "Alice" (sessionOn offline [bob])
              "hello there" "m" H1 H2 eq_refl) as [_ H].
  rewrite H; reflexivity.
Defined.

(** C1, with the line appended verbatim, does not hold on a line that ends
    with its line feed, as the lines of the REPL do: the handler is given
    the line without the line feed. *)
Lemma lock_rewrite_drops_line_feed :
  let L := "hello there" ++ JSString.LF in
  JSString.trim L <> ""
  /\ JSString.trim L <> "unlock"
  /\ registry "m" = Some "m"
  /\ result (processCommand registry (Some "Alice") (sessionOn offline [bob]) L)
     = Invoked "m" (pinnedLine "Alice" "hello there")
  /\ result (processCommand registry (Some "Alice") (sessionOn offline [bob]) L)
     <> Invoked "m" (pinnedLine "Alice" L).
Proof.
  repeat split; try (vm_compute; discriminate).
Qed.

(** ** Dispatching: the other paths of [processCommand] *)

(** The first token of [split] is the text before the first separator. *)
Lemma split_head (sep : ascii) (s : string) :
  exists rest,
    s = hd "" (JSString.split sep s) ++ rest
    /\ JSString.includes sep (hd "" (JSString.split sep s)) = false
    /\ (rest = "" \/ exists r, rest = String sep r).
Proof.
  induction s as [|c s IH]; simpl.
  - exists "". auto.
  - destruct (Ascii.eqb c sep) eqn:E.
    + apply Ascii.eqb_eq in E; subst c. exists (String sep s). simpl. eauto.
    + pose proof (split_nonempty sep s) as Hne.
      destruct (JSString.split sep s) as [|h t]; [congruence|].
      destruct IH as (rest & Hs & Hh & Hrest). simpl in *.
      exists rest. rewrite E, Hh. split; [now rewrite <- Hs|]. auto.
Qed.

Section DispatcherMore.

Context {Handler : Type}.
Variable getCommandHandler : string -> option Handler.

(** X1. An input that is empty or holds white space only resolves without
    calling any handler, whatever the lock and the registry hold: the reset
    of the unread counter is all that happens. *)
Theorem processCommand_blank (lk : lock.t) (this : Messer.t) (rawCommand : string) :
  JSString.trim rawCommand = "" ->
  processCommand getCommandHandler lk this rawCommand
  = mkRun (events (clear this)) (session (clear this)) Resolved.
Proof.
  intros H. unfold processCommand. cbv zeta. now rewrite H.
Qed.

(** What [processCommand] does while the lock is free. *)
Lemma processCommand_free (this : Messer.t) (rawCommand : string) :
  JSString.trim rawCommand <> "" ->
  processCommand getCommandHandler None this rawCommand
  = mkRun (events (clear this)) (session (clear this))
      match getCommandHandler
              (hd "" (JSString.split " " (JSString.replace JSString.LF "" rawCommand)))
      with
      | Some h => Invoked h rawCommand
      | None => Rejected InvalidCommand
      end.
Proof.
  intros H. unfold processCommand. cbv zeta.
  destruct (Nat.eqb (String.length (JSString.trim rawCommand)) 0) eqn:E.
  - apply length_zero_iff in E. contradiction.
  - simpl lock.isLocked. cbv iota.
    now destruct (getCommandHandler _).
Qed.

(** X2. While the lock is free, the verb of a non-blank input is the text
    before the first space of the line (the line without its first line
    feed): the handler the registry has for that verb is called with the
    raw line, unchanged, line feed included; when the registry has none, the
    call rejects with "Invalid command - check your syntax". *)
Theorem processCommand_unlocked (this : Messer.t) (rawCommand : string) :
  JSString.trim rawCommand <> "" ->
  exists verb rest,
    JSString.replace JSString.LF "" rawCommand = verb ++ rest
    /\ JSString.includes " " verb = false
    /\ (rest = "" \/ exists r, rest = String " " r)
    /\ processCommand getCommandHandler None this rawCommand
       = mkRun (events (clear this)) (session (clear this))
           match getCommandHandler verb with
           | Some h => Invoked h rawCommand
           | None => Rejected InvalidCommand
           end.
Proof.
  intros H.
  destruct (split_head " " (JSString.replace JSString.LF "" rawCommand))
    as (rest & Hs & Hv & Hrest).
  exists (hd "" (JSString.split " " (JSString.replace JSString.LF "" rawCommand))), rest.
  repeat split; try assumption. now apply processCommand_free.
Qed.

(** X3. The line is not trimmed before it is split: while the lock is free,
    a non-blank input that starts with a space is dispatched on the empty
    verb, whatever command follows the space. *)
Theorem processCommand_leading_space (this : Messer.t) (command : string) :
  JSString.trim (String " " command) <> "" ->
  processCommand getCommandHandler None this (String " " command)
  = mkRun (events (clear this)) (session (clear this))
      match getCommandHandler "" with
      | Some h => Invoked h (String " " command)
      | None => Rejected InvalidCommand
      end.
Proof.
  intros H. rewrite (processCommand_free this _ H).
  reflexivity.
Qed.

(** X4. While a target is pinned, the verb that was typed selects nothing:
    [processCommand] either resolves (blank input), rejects with the invalid
    command error, calls the registry's [unlock] handler with the raw line
    (input [unlock]), or calls the registry's [m] handler with the pinned
    line. No other handler of the registry can be reached. *)
Theorem processCommand_locked_reach (target : string) (this : Messer.t)
    (rawCommand : string) :
  match result (processCommand getCommandHandler (Some target) this rawCommand) with
  | Resolved => JSString.trim rawCommand = ""
  | Rejected reason => reason = InvalidCommand
  | Invoked h line =>
      (JSString.trim rawCommand = "unlock"
       /\ getCommandHandler "unlock" = Some h /\ line = rawCommand)
      \/ (JSString.trim rawCommand <> "unlock"
          /\ getCommandHandler "m" = Some h
          /\ line = pinnedLine target (JSString.replace JSString.LF "" rawCommand))
  end.
Proof.
  rewrite processCommand_locked. cbv zeta.
  destruct (String.eqb (JSString.trim rawCommand) "") eqn:E0.
  - now apply String.eqb_eq in E0.
  - destruct (String.eqb (JSString.trim rawCommand) "unlock") eqn:E1.
    + apply String.eqb_eq in E1.
      destruct (getCommandHandler "unlock") as [h|] eqn:Hh; simpl; auto.
    + apply String.eqb_neq in E1.
      destruct (getCommandHandler "m") as [h|] eqn:Hh; simpl; auto.
Qed.

End DispatcherMore.

Lemma processCommand_blank_witness :
  JSString.trim ("  " ++ JSString.LF) = ""
  /\ processCommand registry (Some "Alice")
       (Messer.withUnreadMessagesCount (sessionOn offline []) 3)
       ("  " ++ JSString.LF)
     = mkRun [NotifyTerminal] (sessionOn offline []) Resolved.
Proof.
  split; [reflexivity|].
  rewrite (processCommand_blank registry (Some "Alice")
             (Messer.withUnreadMessagesCount (sessionOn offline []) 3)
             ("  " ++ JSString.LF) eq_refl).
  reflexivity.
Defined.

Lemma processCommand_unlocked_witness :
  JSString.trim ("m Bob hi" ++ JSString.LF) <> ""
  /\ exists verb rest,
       JSString.replace JSString.LF "" ("m Bob hi" ++ JSString.LF) = verb ++ rest
       /\ JSString.includes " " verb = false
       /\ (rest = "" \/ exists r, rest = String " " r)
       /\ processCommand registry None (sessionOn offline [bob])
            ("m Bob hi" ++ JSString.LF)
          = mkRun (events (clear (sessionOn offline [bob])))
              (session (clear (sessionOn offline [bob])))
              match registry verb with
              | Some h => Invoked h ("m Bob hi" ++ JSString.LF)
              | None => Rejected InvalidCommand
              end.
Proof.
  assert (H : JSString.trim ("m Bob hi" ++ JSString.LF) <> "")
    by (vm_compute; discriminate).
  split; [exact H|].
  exact (processCommand_unlocked registry (sessionOn offline [bob])
           ("m Bob hi" ++ JSString.LF) H).
Defined.

(** The verb of [m Bob hi] is [m]. *)
Example processCommand_m :
  result (processCommand registry None (sessionOn offline [bob])
            ("m Bob hi" ++ JSString.LF))
  = Invoked "m" ("m Bob hi" ++ JSString.LF).
Proof. reflexivity. Qed.

Lemma processCommand_leading_space_witness :
  JSString.trim " help" <> ""
  /\ result (processCommand registry None (sessionOn offline [bob]) " help")
     = Rejected InvalidCommand.
Proof.
  assert (H : JSString.trim " help" <> "") by (vm_compute; discriminate).
  split; [exact H|].
  rewrite (processCommand_leading_space registry (sessionOn offline [bob]) "help" H).
  reflexivity.
Defined.

(** ** The resolver, case by case *)

Lemma find_In {A : Type} (p : A -> bool) (l : list A) (x : A) :
  find p l = Some x -> In x l /\ p x = true.
Proof. apply find_some. Qed.

(** Every call of [getThreadByName] goes one of the six ways of
    [Resolution]. *)
Lemma getThreadByName_resolution (this : Messer.t) (threadName : string) :
  Resolution this threadName (getThreadByName this threadName).
Proof.
  unfold getThreadByName. cbv zeta.
  set (key := JSObject.toPropertyKey _).
  assert (Hfriends :
    Resolution this threadName
      match find (fun n => JSString.startsWith (JSString.toLowerCase (Friend.fullName n))
                             (JSString.toLowerCase threadName))
                 (User.friends (Messen.user (Messer.messen this))) with
      | None => mkRun [] this (Reject ThreadNotFound)
      | Some friend =>
          mkRun [] this
            (Resolve (Detached {| Thread.name := Some (Friend.fullName friend);
                                  Thread.threadID := Friend.userID friend;
                                  Thread.color := None;
                                  Thread.lastMessageTimestamp := None;
                                  Thread.unreadCount := None |}))
      end).
  { destruct (find _ (User.friends _)) as [friend|] eqn:E.
    - apply find_In in E as [Hin Hp]. now apply FriendFound.
    - apply NobodyFound. }
  destruct (JSObject.get (Messer.threadNameToIdMap this) key) as [id|] eqn:Hkey;
    [|exact Hfriends].
  destruct (JSString.truthy id) eqn:Hid; simpl negb; cbv iota; [|exact Hfriends].
  unfold getThreadById.
  destruct (JSObject.get (Messer.threadCache this) id) as [t|] eqn:Hc; simpl.
  - destruct (Thread.hasName t) eqn:Hn; simpl.
    + now apply (CachedNamed this threadName key id t).
    + now apply (CachedStamped this threadName key id t).
  - destruct (Api.getThreadInfo (Messen.api (Messer.messen this)) id)
      as [err|data] eqn:Hinfo; simpl.
    + now apply (FetchFailed this threadName key id err).
    + rewrite andb_false_r. simpl.
      pose proof (Fetched this threadName key id data Hkey Hid Hc Hinfo) as H.
      now destruct (Thread.hasName data).
Qed.

(** ** More on [clear] and [cacheThread] *)

(** X5. [clear] notifies the terminal exactly when the counter is not zero;
    a second [clear] in a row does nothing at all; and [clear] changes
    nothing of the session but the counter. *)
Theorem clear_once (this : Messer.t) :
  (events (clear this) = [] <-> Messer.unreadMessagesCount this = 0%Z)
  /\ (events (clear this) = [NotifyTerminal]
      <-> Messer.unreadMessagesCount this <> 0%Z)
  /\ clear (session (clear this)) = mkRun [] (session (clear this)) tt
  /\ Messer.threadCache (session (clear this)) = Messer.threadCache this
  /\ Messer.threadNameToIdMap (session (clear this)) = Messer.threadNameToIdMap this
  /\ Messer.messen (session (clear this)) = Messer.messen this
  /\ Messer.lastThread (session (clear this)) = Messer.lastThread this
  /\ Messer.debug (session (clear this)) = Messer.debug this.
Proof.
  split; [|split; [|split]].
  - unfold clear. destruct (Z.eqb_spec (Messer.unreadMessagesCount this) 0);
      simpl; split; intros H; congruence.
  - unfold clear. destruct (Z.eqb_spec (Messer.unreadMessagesCount this) 0);
      simpl; split; intros H; congruence.
  - apply clear_idle, clear_resets.
  - unfold clear. now destruct (Z.eqb (Messer.unreadMessagesCount this) 0).
Qed.

Lemma set_set {V : Type} (o : JSObject.t V) (k : string) (v v' : V) :
  JSObject.set (JSObject.set o k v) k v' = JSObject.set o k v'.
Proof.
  induction o as [|[k0 v0] o IH]; simpl.
  - now rewrite String.eqb_refl.
  - destruct (String.eqb k0 k) eqn:E; simpl; rewrite E; [reflexivity|].
    now rewrite IH.
Qed.

Lemma assign_assign {V : Type} (o : JSObject.t V) (k : string) (v v' : V) :
  JSObject.assign (JSObject.assign o k v) k v' = JSObject.assign o k v'.
Proof.
  unfold JSObject.assign. destruct (String.eqb k "__proto__"); [reflexivity|].
  apply set_set.
Qed.

(** X6. [cacheThread] is idempotent: caching the same thread twice in a row
    leaves the session exactly as caching it once, in the cache, in the name
    index and in the order of their keys. *)
Theorem cacheThread_idempotent (this : Messer.t) (thread : Thread.t) :
  cacheThread (cacheThread this thread) thread = cacheThread this thread.
Proof.
  unfold cacheThread.
  destruct (Thread.name thread) as [n|]; [destruct (JSString.truthy n)|];
    unfold Messer.withThreadCache, Messer.withThreadNameToIdMap; simpl;
    now rewrite ?set_set, ?assign_assign.
Qed.

(** X7. The name index is never cleaned: when a thread cached with the
    non-empty name [n], other than the word [__proto__], is cached again
    under the same id with another name, or with none, the cache holds the
    new record, and [n] still maps to the id of a thread that no longer
    bears it. *)
Theorem cacheThread_stale_name (this : Messer.t) (t1 t2 : Thread.t) (n : string) :
  Thread.name t1 = Some n ->
  JSString.truthy n = true ->
  n <> "__proto__" ->
  Thread.threadID t2 = Thread.threadID t1 ->
  Thread.name t2 <> Some n ->
  let s := cacheThread (cacheThread this t1) t2 in
  getById s (Thread.threadID t1) = Some t2
  /\ getIdByName s n = Some (Thread.threadID t1).
Proof.
  intros Hn Ht Hp Hid Hne s. unfold s. split.
  - now rewrite getById_cacheThread, Hid, String.eqb_refl.
  - rewrite getIdByName_cacheThread.
    destruct (isNamed n t2) eqn:E.
    + apply isNamed_spec in E as [E _]. contradiction.
    + rewrite getIdByName_cacheThread.
      assert (isNamed n t1 = true) as -> by (apply isNamed_spec; auto).
      reflexivity.
Qed.

Lemma cacheThread_stale_name_witness :
  let s := cacheThread (cacheThread (sessionOn offline []) (plainThread (Some "Alice") "1"))
             (plainThread None "1") in
  getById s "1" = Some (plainThread None "1") /\ getIdByName s "Alice" = Some "1".
Proof.
  apply (cacheThread_stale_name (sessionOn offline [])
           (plainThread (Some "Alice") "1") (plainThread None "1") "Alice");
    try reflexivity; discriminate.
Defined.

(** *** Nothing is evicted *)

Lemma retains_refl (s : Messer.t) : retains s s.
Proof. split; auto. Qed.

Lemma retains_trans (s1 s2 s3 : Messer.t) :
  retains s1 s2 -> retains s2 s3 -> retains s1 s3.
Proof. intros [H1 H2] [H3 H4]. split; auto. Qed.

Lemma retains_cacheThread (this : Messer.t) (t : Thread.t) :
  retains this (cacheThread this t).
Proof.
  split.
  - intros k H. rewrite getById_cacheThread.
    now destruct (String.eqb (Thread.threadID t) k).
  - intros n H. rewrite getIdByName_cacheThread.
    now destruct (isNamed n t).
Qed.

Lemma retains_cacheAll (ts : list Thread.t) (this : Messer.t) :
  retains this (cacheAll this ts).
Proof.
  revert this. induction ts as [|t ts IH]; intros this; simpl.
  - apply retains_refl.
  - eapply retains_trans; [apply retains_cacheThread|apply IH].
Qed.

Lemma getById_stamped (this : Messer.t) (id : string) (t : Thread.t) (k : string) :
  getById (Messer.withThreadCache this
             (JSObject.set (Messer.threadCache this) id t)) k
  = if String.eqb id k then Some t else getById this k.
Proof. unfold getById. simpl. apply get_set. Qed.

Lemma retains_stamped (this : Messer.t) (id : string) (t : Thread.t) :
  retains this
    (Messer.withThreadCache this (JSObject.set (Messer.threadCache this) id t)).
Proof.
  split.
  - intros k H. rewrite getById_stamped. now destruct (String.eqb id k).
  - intros n H. exact H.
Qed.

(** The session a call of [getThreadById] leaves. *)
Lemma getThreadById_session (this : Messer.t) (id : string) (requireName : bool) :
  session (getThreadById this id requireName) = this
  \/ exists thread,
       session (getThreadById this id requireName) = cacheThread this thread.
Proof.
  destruct (getById this id) as [t|] eqn:Hc.
  - left. now rewrite (getThreadById_hit this id requireName t Hc).
  - destruct (getThreadById_miss this id requireName Hc) as [_ H].
    cbv zeta in H.
    destruct H as [(err & _ & _ & Hs)
                  |[(data & _ & _ & _ & _ & _ & _ & Hs)
                   |(data & thread & _ & _ & _ & Hs)]]; eauto.
Qed.

Lemma refreshThreadList_session
    (getThreadList : nat -> option string -> list string -> ThreadList)
    (this : Messer.t) :
  fst (refreshThreadList getThreadList this) = this
  \/ exists threads,
       listThreads (getThreadList 20 None ["INBOX"]) = Some threads
       /\ fst (refreshThreadList getThreadList this) = cacheAll this threads.
Proof.
  unfold refreshThreadList. cbv zeta.
  destruct (listThreads (getThreadList 20 None ["INBOX"])) as [threads|]; simpl; eauto.
Qed.

(** X8. Nothing is ever evicted: after [cacheThread], [getThreadById],
    [getThreadByName] or [refreshThreadList], whatever their outcome, every
    id that had a record in the cache still has one and every name that had
    an entry in the index still has one. *)
Theorem nothing_is_evicted (this : Messer.t) :
  (forall thread, retains this (cacheThread this thread))
  /\ (forall id requireName,
        retains this (session (getThreadById this id requireName)))
  /\ (forall threadName, retains this (session (getThreadByName this threadName)))
  /\ (forall getThreadList,
        retains this (fst (refreshThreadList getThreadList this))).
Proof.
  split; [|split; [|split]].
  - apply retains_cacheThread.
  - intros id requireName.
    destruct (getThreadById_session this id requireName) as [->|[thread ->]].
    + apply retains_refl.
    + apply retains_cacheThread.
  - intros threadName.
    destruct (getThreadByName_resolution this threadName); simpl;
      auto using retains_refl, retains_cacheThread, retains_stamped.
  - intros getThreadList.
    destruct (refreshThreadList_session getThreadList this)
      as [->|(threads & _ & ->)].
    + apply retains_refl.
    + apply retains_cacheAll.
Qed.

(** *** Well-formed sessions *)

Lemma wellFormed_new (m : Messen.t) (dbg : bool) : wellFormed (Messer.new m dbg).
Proof. split; intros ? ? ?; discriminate. Qed.

Lemma wellFormed_cacheThread (this : Messer.t) (t : Thread.t) :
  wellFormed this -> wellFormed (cacheThread this t).
Proof.
  intros [Hown Hidx]. split.
  - intros k t' H. rewrite getById_cacheThread in H.
    destruct (String.eqb (Thread.threadID t) k) eqn:E.
    + apply String.eqb_eq in E. now inversion H; subst.
    + now apply Hown.
  - intros n id H. rewrite getIdByName_cacheThread in H.
    destruct (isNamed n t).
    + inversion H; subst id.
      rewrite getById_cacheThread, String.eqb_refl. discriminate.
    + apply (proj1 (retains_cacheThread this t)). eapply Hidx; eauto.
Qed.

Lemma wellFormed_cacheAll (ts : list Thread.t) (this : Messer.t) :
  wellFormed this -> wellFormed (cacheAll this ts).
Proof.
  revert this. induction ts as [|t ts IH]; intros this H; simpl; [exact H|].
  apply IH, wellFormed_cacheThread, H.
Qed.

Lemma wellFormed_stamped (this : Messer.t) (id : string) (t : Thread.t) (n : string) :
  wellFormed this ->
  getById this id = Some t ->
  wellFormed (Messer.withThreadCache this
                (JSObject.set (Messer.threadCache this) id (Thread.setName t n))).
Proof.
  intros [Hown Hidx] Hc. split.
  - intros k t' H. rewrite getById_stamped in H.
    destruct (String.eqb id k) eqn:E.
    + apply String.eqb_eq in E. inversion H; subst. simpl. now apply Hown.
    + now apply Hown.
  - intros m id' H.
    apply (proj1 (retains_stamped this id (Thread.setName t n))).
    eapply Hidx. exact H.
Qed.

(** X9. The sessions these methods build are well formed: if every record
    of the cache bears the id it is stored under and every id of the name
    index is an id of the cache, as on a new session, then the same holds
    after [cacheThread], [getThreadById], [getThreadByName] (its stamp
    included) and [refreshThreadList]. *)
Theorem wellFormed_preserved (this : Messer.t) :
  wellFormed this ->
  (forall thread, wellFormed (cacheThread this thread))
  /\ (forall id requireName,
        wellFormed (session (getThreadById this id requireName)))
  /\ (forall threadName, wellFormed (session (getThreadByName this threadName)))
  /\ (forall getThreadList,
        wellFormed (fst (refreshThreadList getThreadList this))).
Proof.
  intros H. split; [|split; [|split]].
  - intros thread. now apply wellFormed_cacheThread.
  - intros id requireName.
    destruct (getThreadById_session this id requireName) as [->|[thread ->]];
      [exact H|now apply wellFormed_cacheThread].
  - intros threadName.
    destruct (getThreadByName_resolution this threadName); simpl;
      auto using wellFormed_cacheThread, wellFormed_stamped.
  - intros getThreadList.
    destruct (refreshThreadList_session getThreadList this)
      as [->|(threads & _ & ->)];
      [exact H|now apply wellFormed_cacheAll].
Qed.

Lemma wellFormed_preserved_witness :
  wellFormed (sessionOn online [bob])
  /\ wellFormed (session (getThreadById (sessionOn online [bob]) "7" true))
  /\ wellFormed (fst (refreshThreadList inbox (sessionOn online [bob]))).
Proof.
  pose proof (wellFormed_new (Messen.mk online (User.mk "100" "Me" [bob])) false) as H.
  split; [exact H|].
  destruct (wellFormed_preserved (sessionOn online [bob]) H) as (_ & H1 & _ & H2).
  split; [apply H1|apply H2].
Defined.

(** ** Refreshing the thread list: [refreshThreadList] *)

Lemma lastWithId_complete (ts : list Thread.t) (t : Thread.t) :
  In t ts -> exists t', lastWithId (Thread.threadID t) ts = Some t'.
Proof.
  intros Hin. unfold lastWithId.
  destruct (find _ (rev ts)) as [t'|] eqn:E; [eauto|].
  exfalso. apply find_none with (x := t) in E; [|now rewrite <- in_rev].
  rewrite String.eqb_refl in E. discriminate.
Qed.

(** X10. [refreshThreadList] looks at the [threads] of the backend's answer
    to [getThreadList(20, null, ["INBOX"])] and at nothing else, the error
    value included: without [threads] it rejects with "Nothing returned from
    getThreadList" and leaves the session as it was; with an empty array it
    resolves and leaves the session as it was. *)
Theorem refreshThreadList_edges
    (getThreadList : nat -> option string -> list string -> ThreadList)
    (this : Messer.t) :
  (forall getThreadList',
     listThreads (getThreadList' 20 None ["INBOX"])
     = listThreads (getThreadList 20 None ["INBOX"]) ->
     refreshThreadList getThreadList' this = refreshThreadList getThreadList this)
  /\ (listThreads (getThreadList 20 None ["INBOX"]) = None ->
      refreshThreadList getThreadList this
      = (this, Reject (Error "Nothing returned from getThreadList")))
  /\ (listThreads (getThreadList 20 None ["INBOX"]) = Some [] ->
      refreshThreadList getThreadList this = (this, Resolve tt)).
Proof.
  unfold refreshThreadList. cbv zeta. split; [|split].
  - intros getThreadList' H. now rewrite H.
  - intros H. now rewrite H.
  - intros H. now rewrite H.
Qed.

(** X11. A refresh warms the cache: after a [refreshThreadList] that was
    given threads, [getThreadById] of the id of any listed thread is a cache
    hit, with no backend call, on the last record listed with that id; and
    the non-empty name of any listed thread, the word [__proto__] apart,
    maps to the id of the last thread listed with that name. *)
Theorem refreshThreadList_warms_cache
    (getThreadList : nat -> option string -> list string -> ThreadList)
    (this : Messer.t) (threads : list Thread.t) (t : Thread.t)
    (requireName : bool) :
  listThreads (getThreadList 20 None ["INBOX"]) = Some threads ->
  In t threads ->
  let s := fst (refreshThreadList getThreadList this) in
  snd (refreshThreadList getThreadList this) = Resolve tt
  /\ (exists t',
        lastWithId (Thread.threadID t) threads = Some t'
        /\ getThreadById s (Thread.threadID t) requireName
           = mkRun [] s (Resolve (CacheEntry (Thread.threadID t) t')))
  /\ (forall n,
        Thread.name t = Some n -> JSString.truthy n = true ->
        n <> "__proto__" ->
        exists t'',
          lastWithName n threads = Some t''
          /\ getIdByName s n = Some (Thread.threadID t'')).
Proof.
  intros Hlist Hin s.
  assert (Hs : s = cacheAll this threads).
  { unfold s, refreshThreadList. cbv zeta. now rewrite Hlist. }
  split; [|split].
  - unfold refreshThreadList. cbv zeta. now rewrite Hlist.
  - destruct (lastWithId_complete threads t Hin) as [t' Ht'].
    exists t'. split; [exact Ht'|].
    apply getThreadById_hit. now rewrite Hs, getById_cacheAll, Ht'.
  - intros n Hn Htruthy Hp.
    destruct (lastWithName_complete n threads t Hin Hn Htruthy Hp) as [t'' Ht''].
    exists t''. split; [exact Ht''|].
    now rewrite Hs, getIdByName_cacheAll, Ht''.
Qed.

Lemma refreshThreadList_warms_cache_witness :
  let s := fst (refreshThreadList inbox (sessionOn offline [])) in
  snd (refreshThreadList inbox (sessionOn offline [])) = Resolve tt
  /\ (exists t',
        lastWithId "1"
          [plainThread (Some "Alice") "1"; plainThread None "7";
           plainThread (Some "Alicia") "1"] = Some t'
        /\ getThreadById s "1" true = mkRun [] s (Resolve (CacheEntry "1" t')))
  /\ (forall n,
        Some "Alice" = Some n -> JSString.truthy n = true ->
        n <> "__proto__" ->
        exists t'',
          lastWithName n
            [plainThread (Some "Alice") "1"; plainThread None "7";
             plainThread (Some "Alicia") "1"] = Some t''
          /\ getIdByName s n = Some (Thread.threadID t'')).
Proof.
  apply (refreshThreadList_warms_cache inbox (sessionOn offline [])
           [plainThread (Some "Alice") "1"; plainThread None "7";
            plainThread (Some "Alicia") "1"]
           (plainThread (Some "Alice") "1") true).
  - reflexivity.
  - simpl. auto.
Defined.

(** The refresh of the example inbox: the thread 1 ends as Alicia, and both
    of its names stay in the index. *)
Example refreshThreadList_inbox :
  let s := fst (refreshThreadList inbox (sessionOn offline [])) in
  getById s "1" = Some (plainThread (Some "Alicia") "1")
  /\ getIdByName s "Alice" = Some "1"
  /\ getIdByName s "Alicia" = Some "1"
  /\ JSObject.keys (Messer.threadCache s) = ["1"; "7"].
Proof. repeat split. Qed.

(** ** More on the resolver *)

Lemma truthy_iff (s : string) : JSString.truthy s = true <-> s <> "".
Proof.
  unfold JSString.truthy. rewrite negb_true_iff. apply String.eqb_neq.
Qed.

Lemma startsWith_nonempty (s p : string) :
  JSString.startsWith (JSString.toLowerCase s) (JSString.toLowerCase p) = true ->
  p <> "" -> s <> "".
Proof.
  unfold JSString.startsWith. intros H Hp ->.
  destruct p as [|c p]; [congruence|]. discriminate H.
Qed.

(** X12. On a session whose name index points to cached ids only, as every
    session built by these methods does, [getThreadByName] never reaches the
    backend: it calls nothing, and the only way it can fail is with "No
    threadID could be found.". *)
Theorem getThreadByName_offline (this : Messer.t) (threadName : string) :
  indexTargetsCached this ->
  events (getThreadByName this threadName) = []
  /\ forall reason,
       result (getThreadByName this threadName) = Reject reason ->
       reason = ThreadNotFound.
Proof.
  intros Hidx.
  destruct (getThreadByName_resolution this threadName)
    as [|friend| | |key id err Hkey _ Hc|key id data Hkey _ Hc]; simpl;
    try (split; [reflexivity|intros ? ?; congruence]).
  - exfalso. exact (Hidx key id Hkey Hc).
  - exfalso. exact (Hidx key id Hkey Hc).
Qed.

Lemma getThreadByName_offline_witness :
  events (getThreadByName
            (fst (refreshThreadList inbox (sessionOn offline [bob]))) "zed") = []
  /\ forall reason,
       result (getThreadByName
                 (fst (refreshThreadList inbox (sessionOn offline [bob]))) "zed")
       = Reject reason ->
       reason = ThreadNotFound.
Proof.
  apply (getThreadByName_offline
           (fst (refreshThreadList inbox (sessionOn offline [bob]))) "zed").
  apply (wellFormed_cacheAll
           [plainThread (Some "Alice") "1"; plainThread None "7";
            plainThread (Some "Alicia") "1"]
           (sessionOn offline [bob])).
  apply wellFormed_new.
Defined.

(** X13. Whenever [getThreadByName] resolves for a typed name that is not
    empty, the thread it resolves with bears a non-empty name: its own, the
    friend's full name, or else the typed name. *)
Theorem getThreadByName_named (this : Messer.t) (threadName : string) (thread : Ref) :
  threadName <> "" ->
  result (getThreadByName this threadName) = Resolve thread ->
  Thread.hasName (target thread) = true.
Proof.
  intros Hne Hres.
  assert (Hstamp : forall t, Thread.hasName (Thread.setName t threadName) = true).
  { intros t. unfold Thread.hasName. simpl. now apply truthy_iff. }
  destruct (getThreadByName_resolution this threadName)
    as [|friend Hin Hp|key id t _ _ _ Hn|key id t _ _ _ Hn| |key id data _ _ _ _];
    simpl in Hres; inversion Hres; subst thread; simpl.
  - unfold Thread.hasName. simpl. apply truthy_iff.
    eapply startsWith_nonempty; eauto.
  - exact Hn.
  - apply Hstamp.
  - destruct (Thread.hasName data) eqn:Hn; [exact Hn|apply Hstamp].
Qed.

Lemma getThreadByName_named_witness :
  "al" <> ""
  /\ result (getThreadByName
               (cacheAll (sessionOn offline [])
                  [plainThread (Some "Alice") "1"; plainThread None "1"]) "al")
     = Resolve (CacheEntry "1" (plainThread (Some "al") "1"))
  /\ Thread.hasName (target (CacheEntry "1" (plainThread (Some "al") "1"))) = true.
Proof.
  assert (H : "al" <> "") by discriminate.
  split; [exact H|]. split; [reflexivity|].
  apply (getThreadByName_named
           (cacheAll (sessionOn offline [])
              [plainThread (Some "Alice") "1"; plainThread None "1"])
           "al" _ H eq_refl).
Defined.

(** X14. The resolver is blind to the case of the typed name: two typed
    names with the same lower-case form make the same backend calls and
    resolve with a thread of the same id, or fail with the same reason. *)
Theorem getThreadByName_case_blind (this : Messer.t) (a b : string) :
  JSString.toLowerCase a = JSString.toLowerCase b ->
  events (getThreadByName this a) = events (getThreadByName this b)
  /\ outcomeId (result (getThreadByName this a))
     = outcomeId (result (getThreadByName this b)).
Proof.
  intros H. unfold getThreadByName. cbv zeta. rewrite H.
  destruct (JSObject.get (Messer.threadNameToIdMap this) _) as [id|].
  - destruct (negb (JSString.truthy id)).
    + now destruct (find _ (User.friends _)).
    + destruct (getThreadById this id false) as [evs s [thread|reason]]; simpl.
      * destruct (negb (Thread.hasName (target thread))); [|now split].
        now destruct thread.
      * now split.
  - now destruct (find _ (User.friends _)).
Qed.

Lemma getThreadByName_case_blind_witness :
  JSString.toLowerCase "BOB sm" = JSString.toLowerCase "bob SM"
  /\ outcomeId (result (getThreadByName (sessionOn offline [bob]) "BOB sm"))
     = outcomeId (result (getThreadByName (sessionOn offline [bob]) "bob SM")).
Proof.
  split; [reflexivity|].
  apply (getThreadByName_case_blind (sessionOn offline [bob]) "BOB sm" "bob SM").
  reflexivity.
Defined.

(** X15. [getThreadByName] is atomic on failure too: whenever it rejects,
    the session is left as it was, and the reason is either "No threadID
    could be found." or the error of the backend, never the missing friend
    of [getThreadById], which it calls without [requireName]. *)
Theorem getThreadByName_failure_atomic (this : Messer.t) (threadName : string)
    (reason : Reason) :
  result (getThreadByName this threadName) = Reject reason ->
  session (getThreadByName this threadName) = this
  /\ (reason = ThreadNotFound
      \/ exists id err,
           Api.getThreadInfo (Messen.api (Messer.messen this)) id = Err err
           /\ events (getThreadByName this threadName) = [GetThreadInfo id]
           /\ reason = BackendError err)
  /\ reason <> FriendNotFound.
Proof.
  intros Hres.
  destruct (getThreadByName_resolution this threadName)
    as [|friend| | |key id err _ _ _ Hinfo|key id data];
    simpl in Hres; inversion Hres; subst reason; simpl.
  - split; [reflexivity|]. split; [now left|discriminate].
  - split; [reflexivity|]. split; [right; eauto|discriminate].
Qed.

Lemma getThreadByName_failure_atomic_witness :
  let this := cacheThread (sessionOn offline [bob]) (plainThread (Some "Alice") "1") in
  result (getThreadByName this "zed") = Reject ThreadNotFound
  /\ session (getThreadByName this "zed") = this.
Proof.
  split; [reflexivity|].
  apply (getThreadByName_failure_atomic
           (cacheThread (sessionOn offline [bob]) (plainThread (Some "Alice") "1"))
           "zed" ThreadNotFound eq_refl).
Defined.

(** ** More on [getThreadById] and on the stamp of [getThreadByName] *)

Lemma cacheThread_indexes (this : Messer.t) (thread : Thread.t) (n : string) :
  Thread.name thread = Some n ->
  getById (cacheThread this thread) (Thread.threadID thread) = Some thread
  /\ (JSString.truthy n = true -> n <> "__proto__" ->
      getIdByName (cacheThread this thread) n = Some (Thread.threadID thread)).
Proof.
  intros Hn. split.
  - now rewrite getById_cacheThread, String.eqb_refl.
  - intros Ht Hp. rewrite getIdByName_cacheThread.
    assert (isNamed n thread = true) as -> by (apply isNamed_spec; auto).
    reflexivity.
Qed.

Lemma hasName_name (t : Thread.t) :
  Thread.hasName t = true -> exists n, Thread.name t = Some n.
Proof.
  unfold Thread.hasName. destruct (Thread.name t) as [n|]; [eauto|discriminate].
Qed.

(** X16. What [requireName] buys on the backend path: when
    [getThreadById(id, true)] had to reach the backend and resolves, the
    thread it resolves with has a name (the backend's, the session user's or
    a friend's), is cached as returned under its [threadID], and, when that
    name is not empty and is not the word [__proto__], can be found by it in
    the name index. *)
Theorem getThreadById_requireName_names (this : Messer.t) (id : string) (thread : Ref) :
  getById this id = None ->
  result (getThreadById this id true) = Resolve thread ->
  exists n,
    Thread.name (target thread) = Some n
    /\ getById (session (getThreadById this id true))
         (Thread.threadID (target thread)) = Some (target thread)
    /\ (JSString.truthy n = true -> n <> "__proto__" ->
        getIdByName (session (getThreadById this id true)) n
        = Some (Thread.threadID (target thread))).
Proof.
  unfold getById at 1. unfold getThreadById. intros Hmiss. rewrite Hmiss.
  destruct (Api.getThreadInfo (Messen.api (Messer.messen this)) id)
    as [err|data]; [discriminate|].
  destruct (Thread.hasName data) eqn:Hn; simpl.
  - intros Hres. inversion Hres; subst thread. simpl.
    destruct (hasName_name data Hn) as [n Hname].
    exists n. split; [exact Hname|]. now apply cacheThread_indexes.
  - destruct (String.eqb id (User.id (Messen.user (Messer.messen this)))); simpl.
    + intros Hres. inversion Hres; subst thread. simpl.
      eexists. split; [reflexivity|].
      now apply (cacheThread_indexes this (Thread.setName data _)).
    + destruct (find _ (User.friends (Messen.user (Messer.messen this))))
        as [friend|]; simpl; [|discriminate].
      intros Hres. inversion Hres; subst thread. simpl.
      eexists. split; [reflexivity|].
      now apply (cacheThread_indexes this (Thread.setName data _)).
Qed.

Lemma getThreadById_requireName_names_witness :
  let r := getThreadById (sessionOn online [Friend.mk "7" "Grace Hopper"]) "7" true in
  getById (sessionOn online [Friend.mk "7" "Grace Hopper"]) "7" = None
  /\ result r = Resolve (Detached (plainThread (Some "Grace Hopper") "7"))
  /\ exists n,
       Some "Grace Hopper" = Some n
       /\ getById (session r) "7" = Some (plainThread (Some "Grace Hopper") "7")
       /\ (JSString.truthy n = true -> n <> "__proto__" ->
           getIdByName (session r) n = Some "7").
Proof.
  split; [reflexivity|]. split; [reflexivity|].
  exact (getThreadById_requireName_names
           (sessionOn online [Friend.mk "7" "Grace Hopper"]) "7"
           (Detached (plainThread (Some "Grace Hopper") "7")) eq_refl eq_refl).
Defined.

(** X17. [requireName] comes too late for a thread that is already cached:
    once [getThreadById(id)] without [requireName] has fetched and cached a
    thread that has no name, [getThreadById(id, true)] returns that cached
    record, still without a name, with no backend call and no look at the
    friends. *)
Theorem getThreadById_requireName_too_late (this : Messer.t) (id : string)
    (data : Thread.t) :
  getById this id = None ->
  Api.getThreadInfo (Messen.api (Messer.messen this)) id = Data data ->
  Thread.hasName data = false ->
  Thread.threadID data = id ->
  let first := getThreadById this id false in
  first = mkRun [GetThreadInfo id] (cacheThread this data) (Resolve (Detached data))
  /\ getThreadById (session first) id true
     = mkRun [] (session first) (Resolve (CacheEntry id data))
  /\ Thread.hasName (target (CacheEntry id data)) = false.
Proof.
  intros Hmiss Hinfo Hn Hid first.
  assert (Hfirst : first = mkRun [GetThreadInfo id] (cacheThread this data)
                             (Resolve (Detached data))).
  { unfold first, getThreadById. unfold getById in Hmiss.
    now rewrite Hmiss, Hinfo, andb_false_r. }
  split; [exact Hfirst|]. split; [|exact Hn].
  apply getThreadById_hit. rewrite Hfirst. simpl.
  now rewrite getById_cacheThread, Hid, String.eqb_refl.
Qed.

Lemma getThreadById_requireName_too_late_witness :
  let this := sessionOn online [Friend.mk "7" "Grace Hopper"] in
  let first := getThreadById this "7" false in
  first = mkRun [GetThreadInfo "7"] (cacheThread this (plainThread None "7"))
            (Resolve (Detached (plainThread None "7")))
  /\ getThreadById (session first) "7" true
     = mkRun [] (session first) (Resolve (CacheEntry "7" (plainThread None "7")))
  /\ Thread.hasName (target (CacheEntry "7" (plainThread None "7"))) = false.
Proof.
  apply (getThreadById_requireName_too_late
           (sessionOn online [Friend.mk "7" "Grace Hopper"]) "7"
           (plainThread None "7")); reflexivity.
Defined.

(** X18. The stamp is written into the cache and sticks: when the typed name
    [a] is not empty and finds, through the name [key] of the index, a
    cached thread that has no name, [getThreadByName] resolves with the
    cached record stamped with [a], the cache holds the stamped record from
    then on, the name index is left as it was, and a later lookup that finds
    the same [key] through another typed name [b] resolves with the record
    still stamped with [a]. *)
Theorem getThreadByName_stamp_sticks (this : Messer.t) (a b key id : string)
    (t : Thread.t) :
  find (fun n => JSString.startsWith (JSString.toLowerCase n) (JSString.toLowerCase a))
       (JSObject.keys (Messer.threadNameToIdMap this)) = Some key ->
  find (fun n => JSString.startsWith (JSString.toLowerCase n) (JSString.toLowerCase b))
       (JSObject.keys (Messer.threadNameToIdMap this)) = Some key ->
  getIdByName this key = Some id ->
  JSString.truthy id = true ->
  getById this id = Some t ->
  Thread.hasName t = false ->
  JSString.truthy a = true ->
  let first := getThreadByName this a in
  result first = Resolve (CacheEntry id (Thread.setName t a))
  /\ events first = []
  /\ getById (session first) id = Some (Thread.setName t a)
  /\ Messer.threadNameToIdMap (session first) = Messer.threadNameToIdMap this
  /\ getThreadByName (session first) b
     = mkRun [] (session first) (Resolve (CacheEntry id (Thread.setName t a))).
Proof.
  intros Ha Hb Hkey Hid Hc Hn Htruthy first.
  assert (Hfirst :
    first = mkRun []
              (Messer.withThreadCache this
                 (JSObject.set (Messer.threadCache this) id (Thread.setName t a)))
              (Resolve (CacheEntry id (Thread.setName t a)))).
  { unfold first, getThreadByName. cbv zeta. rewrite Ha. simpl JSObject.toPropertyKey.
    unfold getIdByName in Hkey. rewrite Hkey, Hid. simpl negb. cbv iota.
    rewrite (getThreadById_hit this id false t Hc). simpl. now rewrite Hn. }
  rewrite Hfirst. simpl.
  assert (Hc' : getById (Messer.withThreadCache this
                           (JSObject.set (Messer.threadCache this) id
                              (Thread.setName t a))) id
                = Some (Thread.setName t a))
    by (now rewrite getById_stamped, String.eqb_refl).
  repeat split; try assumption.
  unfold getThreadByName. cbv zeta. simpl Messer.threadNameToIdMap.
  rewrite Hb. simpl JSObject.toPropertyKey.
  unfold getIdByName in Hkey. rewrite Hkey, Hid. simpl negb. cbv iota.
  rewrite (getThreadById_hit _ id false _ Hc'). simpl.
  unfold Thread.hasName. simpl. now rewrite Htruthy.
Qed.

Lemma getThreadByName_stamp_sticks_witness :
  let this := cacheAll (sessionOn offline [])
                [plainThread (Some "Alice") "1"; plainThread None "1"] in
  let first := getThreadByName this "al" in
  result first = Resolve (CacheEntry "1" (Thread.setName (plainThread None "1") "al"))
  /\ events first = []
  /\ getById (session first) "1" = Some (Thread.setName (plainThread None "1") "al")
  /\ Messer.threadNameToIdMap (session first) = Messer.threadNameToIdMap this
  /\ getThreadByName (session first) "ALI"
     = mkRun [] (session first)
         (Resolve (CacheEntry "1" (Thread.setName (plainThread None "1") "al"))).
Proof.
  apply (getThreadByName_stamp_sticks
           (cacheAll (sessionOn offline [])
              [plainThread (Some "Alice") "1"; plainThread None "1"])
           "al" "ALI" "Alice" "1" (plainThread None "1")); reflexivity.
Defined.

(** ** A new session *)

Lemma find_first {A : Type} (p : A -> bool) (before after : list A) (x : A) :
  (forall y, In y before -> p y = false) ->
  p x = true ->
  find p (before ++ x :: after)%list = Some x.
Proof.
  induction before as [|y before IH]; intros Hb Hx; simpl.
  - now rewrite Hx.
  - rewrite (Hb y) by (now left). apply IH; [|exact Hx].
    intros z Hz. apply Hb. now right.
Qed.

(** X19. On a new session, before any thread is cached, a typed name is
    resolved through the friends alone, with no backend call and no change
    to the session: the first friend, in the order of the directory, whose
    full name starts with the typed name (case apart) gives a thread with
    the friend's id and full name and nothing else; when no friend's name
    does, the call fails with "No threadID could be found.". *)
Theorem getThreadByName_new_session (m : Messen.t) (dbg : bool)
    (threadName : string) :
  (forall before friend after,
     User.friends (Messen.user m) = (before ++ friend :: after)%list ->
     (forall f, In f before ->
        JSString.startsWith (JSString.toLowerCase (Friend.fullName f))
          (JSString.toLowerCase threadName) = false) ->
     JSString.startsWith (JSString.toLowerCase (Friend.fullName friend))
       (JSString.toLowerCase threadName) = true ->
     getThreadByName (Messer.new m dbg) threadName
     = mkRun [] (Messer.new m dbg)
         (Resolve (Detached {| Thread.name := Some (Friend.fullName friend);
                               Thread.threadID := Friend.userID friend;
                               Thread.color := None;
                               Thread.lastMessageTimestamp := None;
                               Thread.unreadCount := None |})))
  /\ ((forall f, In f (User.friends (Messen.user m)) ->
         JSString.startsWith (JSString.toLowerCase (Friend.fullName f))
           (JSString.toLowerCase threadName) = false) ->
      getThreadByName (Messer.new m dbg) threadName
      = mkRun [] (Messer.new m dbg) (Reject ThreadNotFound)).
Proof.
  assert (H : getThreadByName (Messer.new m dbg) threadName
              = match find (fun n => JSString.startsWith
                                       (JSString.toLowerCase (Friend.fullName n))
                                       (JSString.toLowerCase threadName))
                           (User.friends (Messen.user m)) with
                | None => mkRun [] (Messer.new m dbg) (Reject ThreadNotFound)
                | Some friend =>
                    mkRun [] (Messer.new m dbg)
                      (Resolve (Detached {| Thread.name := Some (Friend.fullName friend);
                                            Thread.threadID := Friend.userID friend;
                                            Thread.color := None;
                                            Thread.lastMessageTimestamp := None;
                                            Thread.unreadCount := None |}))
                end).
  { apply (friend_fallback (Messer.new m dbg) threadName).
    - intros n id Hn. discriminate Hn.
    - exact I. }
  split.
  - intros before friend after Hfriends Hbefore Hfriend.
    rewrite H, Hfriends.
    now rewrite (find_first _ before after friend Hbefore Hfriend).
  - intros Hnone. rewrite H.
    now rewrite (proj2 (find_none_iff _ _) Hnone).
Qed.

Lemma getThreadByName_new_session_witness :
  getThreadByName (sessionOn offline [Friend.mk "41" "Ann Lee"; bob; Friend.mk "43" "Bobby Ray"])
    "BOB"
  = mkRun [] (sessionOn offline [Friend.mk "41" "Ann Lee"; bob; Friend.mk "43" "Bobby Ray"])
      (Resolve (Detached {| Thread.name := Some "Bob Smith";
                            Thread.threadID := "42";
                            Thread.color := None;
                            Thread.lastMessageTimestamp := None;
                            Thread.unreadCount := None |})).
Proof.
  destruct (getThreadByName_new_session
              (Messen.mk offline
                 (User.mk "100" "Me"
                    [Friend.mk "41" "Ann Lee"; bob; Friend.mk "43" "Bobby Ray"]))
              false "BOB") as [H _].
  apply (H [Friend.mk "41" "Ann Lee"] bob [Friend.mk "43" "Bobby Ray"]).
  - reflexivity.
  - intros f [<-|[]]. reflexivity.
  - reflexivity.
Defined.
